(** * almapipo / alma_rest: a shallow embedding of the REST client and of the
    job orchestration, and the properties checked against them.

    Layout:
    - module [Py]: the pieces of the Python runtime the code relies on
      (exceptions, [str] methods, UTF-8 decoding, urlencode);
    - the data model: log records, HTTP requests and responses, tables;
    - section [RestCallApi]: src/alma_rest/rest_call_api.py;
    - section [DbReadWrite]: the persistence operations the orchestration
      calls;
    - section [AlmaRest]: src/alma_rest/alma_rest.py;
    - sections [InputRead] and [InputHelpers]: the row reader and
      src/almapipo/input_helpers.py;
    - section [FlatAlmaRest]: alma_rest.py, the flat GET-only generation;
    - a scripted platform to run the code on, and the properties.

    Conventions.  A Python [str] is represented by its UTF-8 encoding, a Rocq
    [string] whose characters are bytes; [bytes] values are [string]s too.
    Prefix, substring and equality tests against ASCII literals agree on both
    representations.  Effects are threaded through a state monad over [World]
    (database, log, remote platform) whose results are either a returned value
    or a raised exception. *)

From Stdlib Require Import String Ascii List ZArith Lia Bool.
From Stdlib Require Import DecimalString.
Import ListNotations.
Local Open Scope string_scope.
Local Open Scope Z_scope.

(* ===================================================================== *)
(** ** Python runtime                                                     *)
(* ===================================================================== *)

Module Py.

(** The built-in exceptions the modelled code can raise. *)
Inductive exn : Type :=
| ValueError
| NotImplementedError
| TypeError
| IndexError
| UnicodeDecodeError.

(** What running a piece of code gives: a value or an exception. *)
Inductive outcome (A : Type) : Type :=
| Returned (a : A)
| Raised (e : exn).
Arguments Returned {A} a.
Arguments Raised {A} e.

(** State and exceptions: the state reached is kept when an exception
    propagates, as the writes made before a [raise] are not undone. *)
Definition M (St A : Type) : Type := St -> outcome A * St.

Definition ret {St A} (a : A) : M St A := fun w => (Returned a, w).

Definition raise {St A} (e : exn) : M St A := fun w => (Raised e, w).

Definition bind {St A B} (m : M St A) (k : A -> M St B) : M St B :=
  fun w =>
    match m w with
    | (Returned a, w') => k a w'
    | (Raised e, w') => (Raised e, w')
    end.

(** Lifting of a pure partial operation (an index, a decode). *)
Definition lift {St A} (o : outcome A) : M St A := fun w => (o, w).

(** [for x in xs: body(x)] *)
Fixpoint for_each {St A} (xs : list A) (body : A -> M St unit) : M St unit :=
  match xs with
  | [] => ret tt
  | x :: rest => bind (body x) (fun _ => for_each rest body)
  end.

(** *** str *)

(** [s.startswith(p)] *)
Definition startswith (s p : string) : bool := String.prefix p s.

(** [sub in s] *)
Fixpoint contains (sub s : string) : bool :=
  String.prefix sub s ||
  match s with
  | EmptyString => false
  | String _ s' => contains sub s'
  end.

(** [str.split(s, sep)] for a one-character separator: never empty. *)
Fixpoint split (sep : ascii) (s : string) : list string :=
  match s with
  | EmptyString => [EmptyString]
  | String c s' =>
      if Ascii.eqb c sep then EmptyString :: split sep s'
      else match split sep s' with
           | h :: t => String c h :: t
           | [] => [String c EmptyString]
           end
  end.

(** [l[i]] for [i >= 0]: IndexError out of range. *)
Definition index {A} (l : list A) (i : nat) : outcome A :=
  match nth_error l i with
  | Some x => Returned x
  | None => Raised IndexError
  end.

(** [l[-1]] *)
Definition index_last {A} (l : list A) : outcome A :=
  match rev l with
  | x :: _ => Returned x
  | [] => Raised IndexError
  end.

(** [s[0:2]]: slicing never raises. *)
Definition slice_0_2 (s : string) : string := substring 0 2 s.

(** Truth value of a [str] or [bytes] object that may be [None]. *)
Definition truthy (v : option string) : bool :=
  match v with
  | None => false
  | Some EmptyString => false
  | Some _ => true
  end.

(** Truth value of a [dict] that may be [None]. *)
Definition truthy_dict {K V} (d : option (list (K * V))) : bool :=
  match d with
  | None => false
  | Some [] => false
  | Some _ => true
  end.

(** The double-quote character, as a one-character [str]. *)
Definition dquote : string := String (ascii_of_nat 34) EmptyString.

(** [str(n)] for an [int]. *)
Definition str_of_int (n : Z) : string := NilZero.string_of_int (Z.to_int n).

(** *** bytes.decode("utf-8") *)

Definition byte_in (lo hi : N) (c : ascii) : bool :=
  (N.leb lo (N_of_ascii c) && N.leb (N_of_ascii c) hi)%bool.

Definition cont (c : ascii) : bool := byte_in 128 191 c.

(** The strict decoder accepts exactly the well-formed sequences: no
    overlong form, no surrogate, nothing above U+10FFFF. *)
Fixpoint utf8_valid (s : string) : bool :=
  match s with
  | EmptyString => true
  | String b0 r0 =>
      if byte_in 0 127 b0 then utf8_valid r0
      else match r0 with
      | EmptyString => false
      | String b1 r1 =>
          if byte_in 194 223 b0 then (cont b1 && utf8_valid r1)%bool
          else match r1 with
          | EmptyString => false
          | String b2 r2 =>
              if byte_in 224 224 b0
              then (byte_in 160 191 b1 && cont b2 && utf8_valid r2)%bool
              else if (byte_in 225 236 b0 || byte_in 238 239 b0)%bool
              then (cont b1 && cont b2 && utf8_valid r2)%bool
              else if byte_in 237 237 b0
              then (byte_in 128 159 b1 && cont b2 && utf8_valid r2)%bool
              else match r2 with
              | EmptyString => false
              | String b3 r3 =>
                  if byte_in 240 240 b0
                  then (byte_in 144 191 b1 && cont b2 && cont b3
                        && utf8_valid r3)%bool
                  else if byte_in 241 243 b0
                  then (cont b1 && cont b2 && cont b3 && utf8_valid r3)%bool
                  else if byte_in 244 244 b0
                  then (byte_in 128 143 b1 && cont b2 && cont b3
                        && utf8_valid r3)%bool
                  else false
              end
          end
      end
  end.

(** [b.decode("utf-8")]: the text (kept in its UTF-8 form) or
    UnicodeDecodeError. *)
Definition decode_utf8 (b : string) : outcome string :=
  if utf8_valid b then Returned b else Raised UnicodeDecodeError.

(** *** urllib.parse *)

(** Characters [quote] never escapes: letters, digits and [_.-~]. *)
Definition always_safe (c : ascii) : bool :=
  (byte_in 65 90 c || byte_in 97 122 c || byte_in 48 57 c
   || Ascii.eqb c "_" || Ascii.eqb c "." || Ascii.eqb c "-"
   || Ascii.eqb c "~")%bool.

Definition hex_digit (n : N) : ascii :=
  if N.ltb n 10 then ascii_of_N (48 + n) else ascii_of_N (55 + n).

(** ['%{:02X}'.format(byte)] *)
Definition percent (c : ascii) : string :=
  let n := N_of_ascii c in
  String "%" (String (hex_digit (N.div n 16))
                     (String (hex_digit (N.modulo n 16)) EmptyString)).

(** [quote_plus(s)]: safe characters stay, a space becomes [+], every other
    byte of the UTF-8 encoding is percent-escaped. *)
Fixpoint quote_plus (s : string) : string :=
  match s with
  | EmptyString => EmptyString
  | String c s' =>
      (if always_safe c then String c EmptyString
       else if Ascii.eqb c " " then "+"
       else percent c) ++ quote_plus s'
  end.

(** ['&'.join(l)] *)
Fixpoint join_amp (l : list string) : string :=
  match l with
  | [] => EmptyString
  | [x] => x
  | x :: rest => x ++ "&" ++ join_amp rest
  end.

(** [urlencode(query)] for a dict of [str] to [str], in insertion order. *)
Definition urlencode (query : list (string * string)) : string :=
  join_amp (map (fun kv => quote_plus (fst kv) ++ "=" ++ quote_plus (snd kv))
                query).

End Py.
Import Py.

Declare Scope py_scope.
Delimit Scope py_scope with py.
Notation "x <- m ;; k" := (bind m (fun x => k))
  (at level 61, m at next level, right associativity) : py_scope.
Notation "m ;;; k" := (bind m (fun _ => k))
  (at level 61, right associativity) : py_scope.
Local Open Scope py_scope.

(** [log_string += {content}]: a [str] and a [set] do not add; the operands
    are kept to show what the statement was given. *)
Definition str_iadd_set (s : string) (x : list string) : outcome string :=
  Raised TypeError.

(** [type(x) is None]: [type] gives a class object, never [None]. *)
Definition type_is_None {A} (x : A) : bool := false.

(* ===================================================================== *)
(** ** Data model                                                         *)
(* ===================================================================== *)

(** *** Log records *)

Inductive level : Type := INFO | WARNING | ERROR.

(** A formatted message: literal text and interpolated [str] values are
    [Str]; values interpolated through [repr] are kept as they are. *)
Inductive piece : Type :=
| Str (s : string)
| ReprBytes (b : string)
| ReprDict (d : list (string * string))
| ReprCounts (c : list (string * nat)).

Record LogRecord : Type := mkLog { levelname : level; msg : list piece }.

(** *** HTTP *)

(** A call of a method of the session: the method, the URL string handed to
    it as the code built it (the HTTP library does its own quoting after
    that), the headers the code set on the session (the defaults of the
    library are not listed) and the data. *)
Record Request : Type := mkRequest {
  req_method : string;
  req_url : string;
  req_headers : list (string * string);
  req_data : option string
}.

Record Response : Type := mkResponse {
  status_code : Z;
  content : string
}.

(** *** Tables (columns as in the table definitions) *)

Record JobStatusEntry : Type := mkJobStatus {
  alma_id : string;
  job_status : string;
  job_date : Z;
  job_action : string
}.

Record SourceCsvLine : Type := mkSourceCsv {
  job_id : Z;
  csv_line : list (string * string)
}.

(** Rows of fetched_records, sent_records and put_post_responses. *)
Record BodyRow : Type := mkBody {
  row_alma_id : string;
  row_date : Z;
  row_data : string
}.

Record Db : Type := mkDb {
  job_status_per_id : list JobStatusEntry;
  source_csv : list SourceCsvLine;
  fetched_records : list BodyRow;
  sent_records : list BodyRow;
  put_post_responses : list BodyRow;
  commits : nat
}.

Definition empty_db : Db := mkDb [] [] [] [] [] 0.

(** *** The state a call runs in *)

(** What the REST client can read and change: the log and the platform. *)
Record Net (server : Type) : Type := mkNet {
  log : list LogRecord;
  remote : server
}.
Arguments mkNet {server} log remote.
Arguments log {server} n.
Arguments remote {server} n.

(** What the orchestration can read and change: the database as well.  Every
    database session is a view on the one [db]. *)
Record World (server : Type) : Type := mkWorld {
  db : Db;
  net : Net server
}.
Arguments mkWorld {server} db net.
Arguments db {server} w.
Arguments net {server} w.

Definition with_db {server} (w : World server) (d : Db) : World server :=
  mkWorld d (net w).

Definition with_remote {server} (n : Net server) (s : server) : Net server :=
  mkNet (log n) s.

(** Running client code from the orchestration: the database is out of its
    reach. *)
Definition in_net {server A} (m : M (Net server) A) : M (World server) A :=
  fun w => let (r, n') := m (net w) in (r, mkWorld (db w) n').

(** States that carry the log. *)
Class Logging (St : Type) : Type := {
  get_log : St -> list LogRecord;
  set_log : St -> list LogRecord -> St
}.

#[export] Instance Logging_Net {server} : Logging (Net server) := {
  get_log := log;
  set_log n l := mkNet l (remote n)
}.

#[export] Instance Logging_World {server} : Logging (World server) := {
  get_log w := log (net w);
  set_log w l := mkWorld (db w) (mkNet l (remote (net w)))
}.

(** [logger.info], [logger.warning], [logger.error] *)
Definition emit {St} `{Logging St} (lv : level) (m : list piece)
  : M St unit :=
  fun w => (Returned tt, set_log w (get_log w ++ [mkLog lv m])%list).

Definition logger_info {St} `{Logging St} := @emit St _ INFO.
Definition logger_warning {St} `{Logging St} := @emit St _ WARNING.
Definition logger_error {St} `{Logging St} := @emit St _ ERROR.

(** The records of a given level in a log, oldest first. *)
Definition at_level (lv : level) (l : list LogRecord) : list LogRecord :=
  filter (fun r => match levelname r, lv with
                   | INFO, INFO | WARNING, WARNING | ERROR, ERROR => true
                   | _, _ => false
                   end) l.

(* ===================================================================== *)
(** ** rest_call_api.py                                                   *)
(* ===================================================================== *)

Section RestCallApi.

Context {server : Type}.

(** The transport: what the platform answers to a request, and the state it
    is left in.  Every request is answered; a connection that fails is not
    part of the model. *)
Variable send : server -> Request -> Response * server.

(** [environ['ALMA_REST_API_KEY']], [environ['ALMA_REST_API_BASE_URL']] *)
Variables (api_key api_base_url : string).

Local Abbreviation NetSt := (Net server).

(** The session is the headers the code sets on it. *)
Definition create_alma_api_session (session_format : string)
  : list (string * string) :=
  [ ("accept", "application/" ++ session_format);
    ("Content-Type", "application/" ++ session_format);
    ("authorization", "apikey " ++ api_key);
    ("User-Agent", "alma_rest/0.0.1") ].

Definition session_request (session : list (string * string))
    (method alma_url : string) (data : option string) : M NetSt Response :=
  fun w =>
    let (r, s') := send (remote w) (mkRequest method alma_url session data) in
    (Returned r, with_remote w s').

Definition switch_api_method (alma_url method : string)
    (session : list (string * string)) (record_data : option string)
  : M NetSt Response :=
  if (method =? "DELETE")%string then session_request session "DELETE" alma_url None
  else if (method =? "GET")%string then session_request session "GET" alma_url None
  else if (method =? "POST")%string
  then session_request session "POST" alma_url record_data
  else if (method =? "PUT")%string
  then session_request session "PUT" alma_url record_data
  else
    logger_error [Str "No valid REST method supplied."] ;;;
    raise ValueError.

Definition call_api (url_parameters method : string) (status_code' : Z)
    (record_data : option string) : M NetSt (option string) :=
  let session := create_alma_api_session "xml" in
  let alma_url := api_base_url ++ url_parameters in
  alma_response <- switch_api_method alma_url method session record_data ;;
  if status_code alma_response =? status_code' then
    alma_response_content <- lift (decode_utf8 (content alma_response)) ;;
    logger_info [Str (method ++ " for record " ++ dquote ++ url_parameters
                      ++ dquote ++ " completed.")] ;;;
    (if contains "<errorList>" alma_response_content then
       let log_string :=
         [Str ("The response contained an error, even though it had status code "
               ++ str_of_int status_code' ++ ". ")] in
       let log_string :=
         (log_string
          ++ [Str ("Reason: " ++ str_of_int (status_code alma_response)
                   ++ " - ");
              ReprBytes (content alma_response)])%list in
       logger_warning log_string
     else if (negb (startswith alma_response_content "<?xml")
              && negb (status_code' =? 204))%bool then
       let log_string :=
         "The response retrieved does not seem to be valid xml - startswith('<?xml') -- " in
       log_string <- lift (str_iadd_set log_string [alma_response_content]) ;;
       logger_error [Str log_string]
     else ret tt) ;;;
    ret (Some alma_response_content)
  else
    let error_string :=
      method ++ " for record " ++ dquote ++ url_parameters ++ dquote
      ++ " failed. " in
    body <- lift (decode_utf8 (content alma_response)) ;;
    let error_string :=
      error_string ++ "Reason: " ++ str_of_int (status_code alma_response)
      ++ " - " ++ body in
    logger_error [Str error_string] ;;;
    ret None.

(** The local name [url] is rebound; the caller's string is untouched and
    nothing is returned. *)
Definition add_parameters (url : string) (parameters : list (string * string))
  : M NetSt unit :=
  logger_info [Str "Additional parameters provided: ";
               ReprDict parameters; Str "."] ;;;
  let url_parameters := urlencode parameters in
  let url := url ++ "?" ++ url_parameters in
  ret tt.

Record GenericApi : Type := mkGenericApi { base_path : string }.

Definition create (self : GenericApi) (record_data : option string)
    (url_parameters : option (list (string * string)))
  : M NetSt (option string) :=
  logger_info [Str ("Trying POST for " ++ base_path self ++ ".")] ;;;
  (if truthy_dict url_parameters
   then add_parameters (base_path self)
          (match url_parameters with Some p => p | None => [] end)
   else ret tt) ;;;
  response_content <- call_api (base_path self) "POST" 200 record_data ;;
  ret response_content.

Definition delete (self : GenericApi) (record_id : string)
    (url_parameters : option (list (string * string)))
  : M NetSt (option string) :=
  logger_info [Str ("Trying DELETE for record " ++ record_id ++ " at "
                    ++ base_path self ++ ".")] ;;;
  (if truthy_dict url_parameters
   then add_parameters (base_path self)
          (match url_parameters with Some p => p | None => [] end)
   else ret tt) ;;;
  delete_response <- call_api (base_path self ++ record_id) "DELETE" 204 None ;;
  ret delete_response.

Definition retrieve (self : GenericApi) (record_id : string)
    (url_parameters : option (list (string * string)))
  : M NetSt (option string) :=
  logger_info [Str ("Trying GET for record " ++ record_id ++ " at "
                    ++ base_path self ++ ".")] ;;;
  (if truthy_dict url_parameters
   then add_parameters (base_path self)
          (match url_parameters with Some p => p | None => [] end)
   else ret tt) ;;;
  response_content <- call_api (base_path self ++ record_id) "GET" 200 None ;;
  ret response_content.

Definition update (self : GenericApi) (record_id : string)
    (record_data : option string)
    (url_parameters : option (list (string * string)))
  : M NetSt (option string) :=
  logger_info [Str ("Trying PUT for record " ++ record_id ++ " at "
                    ++ base_path self ++ ".")] ;;;
  (if truthy_dict url_parameters
   then add_parameters (base_path self)
          (match url_parameters with Some p => p | None => [] end)
   else ret tt) ;;;
  response_content <-
    call_api (base_path self ++ record_id) "PUT" 200 record_data ;;
  ret response_content.

End RestCallApi.

(* ===================================================================== *)
(** ** Persistence layer                                                  *)
(* ===================================================================== *)

Section DbReadWrite.

Context {server : Type}.
Local Abbreviation W := (World server).

Definition on_db (f : Db -> Db) : M W unit :=
  fun w => (Returned tt, with_db w (f (db w))).

(** [create_db_session()]: a new view on the database. *)
Definition create_db_session : M W unit := ret tt.

(** [db_session.commit()] *)
Definition commit : M W unit :=
  on_db (fun d => mkDb (job_status_per_id d) (source_csv d)
                       (fetched_records d) (sent_records d)
                       (put_post_responses d) (S (commits d))).

(** [db_session.close()] *)
Definition close : M W unit := ret tt.

Definition set_job_status_rows (d : Db) (rows : list JobStatusEntry) : Db :=
  mkDb rows (source_csv d) (fetched_records d) (sent_records d)
       (put_post_responses d) (commits d).

(** Modelled from the spec: db_read_write.add_alma_id_to_job_status_per_id,
    whose module is not among the sources.  Inserts a job-status row with
    status "new"; the parameters are identifier, action, timestamp, as
    declared in the spec and as call_api_for_record passes them. *)
Definition add_alma_id_to_job_status_per_id
    (alma_id' action : string) (job_timestamp : Z) : M W unit :=
  on_db (fun d =>
    set_job_status_rows d
      (job_status_per_id d ++ [mkJobStatus alma_id' "new" job_timestamp action])).

Definition set_status (status : string) (r : JobStatusEntry)
  : JobStatusEntry :=
  mkJobStatus (alma_id r) status (job_date r) (job_action r).

(** The row is the one of the identifier, action and timestamp. *)
Definition is_key (alma_id' action : string) (job_timestamp : Z)
    (r : JobStatusEntry) : bool :=
  ((alma_id r =? alma_id')%string && (job_action r =? action)%string
   && (job_date r =? job_timestamp))%bool.

(** The row after an update of the status of the rows of a key. *)
Definition mark (status alma_id' action : string) (job_timestamp : Z)
    (r : JobStatusEntry) : JobStatusEntry :=
  if is_key alma_id' action job_timestamp r then set_status status r else r.

(** Modelled from the spec: db_read_write.update_job_status, whose module is
    not among the sources.  Sets the status of the rows matched on
    identifier, action and timestamp. *)
Definition update_job_status
    (status alma_id' action : string) (job_timestamp : Z) : M W unit :=
  on_db (fun d =>
    set_job_status_rows d
      (map (mark status alma_id' action job_timestamp)
           (job_status_per_id d))).

(** Modelled from the spec: db_read_write.add_response_content_to_fetched_records,
    whose module is not among the sources.  Inserts one fetched-record row. *)
Definition add_response_content_to_fetched_records
    (alma_id' record_data : string) (job_timestamp : Z) : M W unit :=
  on_db (fun d =>
    mkDb (job_status_per_id d) (source_csv d)
         (fetched_records d ++ [mkBody alma_id' job_timestamp record_data])
         (sent_records d) (put_post_responses d) (commits d)).

(** Modelled from the spec: db_read_write.add_sent_record, whose module is
    not among the sources.  Inserts one sent-record row. *)
Definition add_sent_record
    (alma_id' record_data : string) (job_timestamp : Z) : M W unit :=
  on_db (fun d =>
    mkDb (job_status_per_id d) (source_csv d) (fetched_records d)
         (sent_records d ++ [mkBody alma_id' job_timestamp record_data])
         (put_post_responses d) (commits d)).

(** Modelled from the spec: db_read_write.add_put_post_response, whose module
    is not among the sources.  Inserts one response row. *)
Definition add_put_post_response
    (alma_id' response : string) (job_timestamp : Z) : M W unit :=
  on_db (fun d =>
    mkDb (job_status_per_id d) (source_csv d) (fetched_records d)
         (sent_records d)
         (put_post_responses d ++ [mkBody alma_id' job_timestamp response])
         (commits d)).

Fixpoint strings_eqb (a b : list string) : bool :=
  match a, b with
  | [], [] => true
  | x :: a', y :: b' => ((x =? y)%string && strings_eqb a' b')%bool
  | _, _ => false
  end.

Definition bodies_for (alma_id' : string) (job_timestamp : Z)
    (rows : list BodyRow) : list string :=
  map row_data
      (filter (fun r => ((row_alma_id r =? alma_id')%string
                         && (row_date r =? job_timestamp))%bool) rows).

(** Modelled from the spec: db_read_write.check_data_sent_equals_response,
    whose module is not among the sources.  Loads the sent and the response
    bodies of the pair and logs a warning when they differ by exact text. *)
Definition check_data_sent_equals_response
    (alma_id' : string) (job_timestamp : Z) : M W unit :=
  fun w =>
    let sent := bodies_for alma_id' job_timestamp (sent_records (db w)) in
    let got := bodies_for alma_id' job_timestamp (put_post_responses (db w)) in
    if strings_eqb sent got then ret tt w
    else logger_warning
           [Str ("Data sent and response differ for " ++ alma_id' ++ ".")] w.

Definition count_status (action : string) (job_timestamp : Z)
    (status : string) (rows : list JobStatusEntry) : nat :=
  length (filter (fun r => ((job_action r =? action)%string
                            && (job_date r =? job_timestamp)
                            && (job_status r =? status)%string)%bool) rows).

(** Modelled from the spec: db_read_write.log_success_rate, whose module is
    not among the sources.  Counts the job-status rows of the action and
    timestamp by status and logs the distribution. *)
Definition log_success_rate (action : string) (job_timestamp : Z)
  : M W unit :=
  fun w =>
    let rows := job_status_per_id (db w) in
    logger_info
      [Str ("Success rate for " ++ action ++ ": ");
       ReprCounts
         [("done", count_status action job_timestamp "done" rows);
          ("error", count_status action job_timestamp "error" rows);
          ("new", count_status action job_timestamp "new" rows)]] w.

End DbReadWrite.

(* ===================================================================== *)
(** ** src/alma_rest/alma_rest.py                                         *)
(* ===================================================================== *)

Section AlmaRest.

Context {server : Type}.
Local Abbreviation W := (World server).
Local Abbreviation NetSt := (Net server).

(** An API object as the orchestration uses it: retrieve(record_id),
    delete(record_id), update(record_id, record_data). *)
Record ApiObject : Type := mkApiObject {
  api_retrieve : string -> M NetSt (option string);
  api_delete : string -> M NetSt (option string);
  api_update : string -> string -> M NetSt (option string)
}.

(** The imported modules that are not among the sources (rest_bibs,
    rest_electronic, rest_users, rest_conf), taken as parameters: the
    constructors of their API classes and the set-membership call. *)
Record RestModules : Type := mkRestModules {
  rest_bibs_BibsApi : M NetSt ApiObject;
  rest_bibs_HoldingsApi : string -> M NetSt ApiObject;
  rest_bibs_ItemsApi : string -> string -> M NetSt ApiObject;
  rest_bibs_PortfoliosApi : string -> M NetSt ApiObject;
  rest_electronic_EcollectionsApi : M NetSt ApiObject;
  rest_electronic_EservicesApi : string -> M NetSt ApiObject;
  rest_electronic_PortfoliosApi : string -> string -> M NetSt ApiObject;
  rest_users_UsersApi : M NetSt ApiObject;
  rest_conf_retrieve_set_member_alma_ids :
    string -> M NetSt (option (list string))
}.

Variable rest : RestModules.

(** The timestamp taken when the module is loaded. *)
Variable job_timestamp : Z.

Definition instantiate_api_class (alma_id' api record_type : string)
  : M W ApiObject :=
  let split_alma_id := split "," alma_id' in
  if (api =? "bibs")%string then
    if (record_type =? "bibs")%string then
      in_net (rest_bibs_BibsApi rest)
    else if (record_type =? "holdings")%string then
      a0 <- lift (index split_alma_id 0) ;;
      in_net (rest_bibs_HoldingsApi rest a0)
    else if (record_type =? "items")%string then
      a0 <- lift (index split_alma_id 0) ;;
      a1 <- lift (index split_alma_id 1) ;;
      in_net (rest_bibs_ItemsApi rest a0 a1)
    else if (record_type =? "portfolios")%string then
      a0 <- lift (index split_alma_id 0) ;;
      in_net (rest_bibs_PortfoliosApi rest a0)
    else raise NotImplementedError
  else if (api =? "electronic")%string then
    if (record_type =? "e-collections")%string then
      in_net (rest_electronic_EcollectionsApi rest)
    else if (record_type =? "e-services")%string then
      a0 <- lift (index split_alma_id 0) ;;
      in_net (rest_electronic_EservicesApi rest a0)
    else if (record_type =? "portfolios")%string then
      a0 <- lift (index split_alma_id 0) ;;
      a1 <- lift (index split_alma_id 1) ;;
      in_net (rest_electronic_PortfoliosApi rest a0 a1)
    else raise NotImplementedError
  else if (api =? "users")%string then
    if (record_type =? "users")%string then
      in_net (rest_users_UsersApi rest)
    else raise NotImplementedError
  else
    logger_error
      [Str "The API you are trying to call is not implemented yet or does not exist."] ;;;
    raise NotImplementedError.

(** [method in ['DELETE', 'GET', 'PUT', 'POST']] *)
Definition is_known_method (method : string) : bool :=
  existsb (String.eqb method) ["DELETE"; "GET"; "PUT"; "POST"].

(** [manipulate_record] is [None] or a function of the identifier and the
    fetched body that gives the new body, or nothing. *)
Definition call_api_for_record (alma_id' api record_type method : string)
    (manipulate_record : option (string -> string -> option string))
  : M W unit :=
  (if negb (is_known_method method) then
     logger_error [Str ("Provided method " ++ method
                        ++ " does not match any of the expected values.")] ;;;
     raise ValueError
   else ret tt) ;;;
  (if (method =? "POST")%string then raise NotImplementedError else ret tt) ;;;
  CurrentApi <- instantiate_api_class alma_id' api record_type ;;
  add_alma_id_to_job_status_per_id alma_id' "GET" job_timestamp ;;;
  record_id <- lift (index_last (split "," alma_id')) ;;
  record_data <- in_net (api_retrieve CurrentApi record_id) ;;
  match record_data with
  | None | Some EmptyString =>
      (* not record_data *)
      logger_error [Str ("Could not fetch record " ++ alma_id' ++ ".")] ;;;
      update_job_status "error" alma_id' "GET" job_timestamp
  | Some record_data =>
      add_response_content_to_fetched_records
        alma_id' record_data job_timestamp ;;;
      update_job_status "done" alma_id' "GET" job_timestamp ;;;
      commit ;;;
      if (method =? "DELETE")%string then
        add_alma_id_to_job_status_per_id alma_id' method job_timestamp ;;;
        alma_response <- in_net (api_delete CurrentApi record_id) ;;
        match alma_response with
        | None =>
            (* alma_response is None *)
            update_job_status "error" alma_id' method job_timestamp
        | Some _ =>
            update_job_status "done" alma_id' method job_timestamp
        end
      else if (method =? "PUT")%string then
        add_alma_id_to_job_status_per_id alma_id' method job_timestamp ;;;
        new_record_data <-
          match manipulate_record with
          | Some f => ret (f alma_id' record_data)
          | None => raise TypeError
          end ;;
        match new_record_data with
        | None | Some EmptyString =>
            (* not new_record_data *)
            logger_error [Str ("Could not manipulate data of record "
                               ++ alma_id' ++ ".")] ;;;
            update_job_status "error" alma_id' method job_timestamp
        | Some new_record_data =>
            response <-
              in_net (api_update CurrentApi record_id new_record_data) ;;
            match response with
            | None | Some EmptyString =>
                (* not response *)
                logger_error [Str ("Did not receive a response for "
                                   ++ alma_id' ++ "?")] ;;;
                update_job_status "error" alma_id' method job_timestamp
            | Some response =>
                logger_info [Str ("Manipulation for " ++ alma_id'
                                  ++ " successful. Adding to put_post_responses.")] ;;;
                add_put_post_response alma_id' response job_timestamp ;;;
                add_sent_record alma_id' new_record_data job_timestamp ;;;
                update_job_status "done" alma_id' method job_timestamp ;;;
                check_data_sent_equals_response alma_id' job_timestamp
            end
        end
      else ret tt
  end ;;;
  commit.

(** [alma_ids] is what the caller hands over: a sequence, or [None] when
    call_api_for_set got nothing from the Sets API. *)
Definition call_api_for_list (alma_ids : option (list string))
    (api record_type method : string)
    (manipulate_record : option (string -> string -> option string))
  : M W unit :=
  create_db_session ;;;
  match alma_ids with
  | Some ids =>
      for_each ids (fun alma_id' =>
        call_api_for_record alma_id' api record_type method manipulate_record)
  | None =>
      (* for alma_id in None *)
      raise TypeError
  end ;;;
  log_success_rate method job_timestamp ;;;
  close.

Definition call_api_for_set (set_id api record_type method : string)
    (manipulate_record : option (string -> string -> option string))
  : M W unit :=
  create_db_session ;;;
  add_alma_id_to_job_status_per_id "GET" set_id job_timestamp ;;;
  alma_id_list <- in_net (rest_conf_retrieve_set_member_alma_ids rest set_id) ;;
  (if type_is_None alma_id_list then
     update_job_status "error" set_id "GET" job_timestamp ;;;
     logger_error [Str ("An error occurred while retrieving the set's members. Is the set "
                        ++ set_id ++ " empty?")]
   else ret tt) ;;;
  call_api_for_list alma_id_list api record_type method manipulate_record ;;;
  update_job_status "done" set_id "GET" job_timestamp ;;;
  commit ;;;
  close.

End AlmaRest.

(* ===================================================================== *)
(** ** Input reader                                                       *)
(* ===================================================================== *)

(** A parsed row: the columns in file order. *)
Definition CsvLine : Type := list (string * string).

(** [list(csv_line.values())[0]] *)
Definition first_column (csv_line' : CsvLine) : outcome string :=
  index (map snd csv_line') 0.

Section InputRead.

(** The files that exist, each with the rows its parsing gives. *)
Variable files : string -> option (list CsvLine).

(** The identifier check applied to a first column. *)
Variable is_valid_alma_id : string -> bool.

Context {St : Type} `{Logging St}.

(** Modelled from the spec: input_read.check_file_path, whose module is not
    among the sources.  True iff the path exists and is readable. *)
Definition check_file_path (path : string) : bool :=
  match files path with Some _ => true | None => false end.

Definition keeps (validation : bool) (line : CsvLine) : bool :=
  (negb validation
   || match first_column line with
      | Returned v => is_valid_alma_id v
      | Raised _ => false
      end)%bool.

Fixpoint read_rows (validation : bool) (rows : list CsvLine)
  : M St (list CsvLine) :=
  match rows with
  | [] => ret []
  | line :: rest =>
      if keeps validation line then
        kept <- read_rows validation rest ;;
        ret (line :: kept)
      else
        logger_warning [Str "Skipping a row whose first column is not a valid Alma-ID."] ;;;
        read_rows validation rest
  end.

(** Modelled from the spec: input_read.read_csv_contents, whose module is not
    among the sources.  Gives the rows of the file; with [validation] the rows
    whose first column is not a valid identifier are skipped with a logged
    warning; a path that fails the existence check gives no row. *)
Definition read_csv_contents (path : string) (validation : bool)
  : M St (list CsvLine) :=
  match files path with
  | Some rows => read_rows validation rows
  | None => ret []
  end.

End InputRead.

(* ===================================================================== *)
(** ** src/almapipo/input_helpers.py                                      *)
(* ===================================================================== *)

Section InputHelpers.

Variable files : string -> option (list CsvLine).
Variable is_valid_alma_id : string -> bool.
Context {server : Type}.
Local Abbreviation W := (World server).

Record CsvHelper : Type := mkCsvHelper { csv_line_list : list CsvLine }.

(** The row reader, called with the path and the validation flag. *)
Definition input_read_read_csv_contents (csv_path : string)
    (validation : bool) : M W (list CsvLine) :=
  read_csv_contents files is_valid_alma_id csv_path validation.

(** [CsvHelper(csv_path, validation)]; [None] stands for the argument left
    out, which takes the default of the signature, [False]. *)
Definition CsvHelper_init (csv_path : string) (validation : option bool)
  : M W CsvHelper :=
  let validation := match validation with Some v => v | None => false end in
  lines <- input_read_read_csv_contents csv_path validation ;;
  ret (mkCsvHelper lines).

Fixpoint first_columns (lines : list CsvLine) : outcome (list string) :=
  match lines with
  | [] => Returned []
  | line :: rest =>
      match first_column line with
      | Returned v =>
          match first_columns rest with
          | Returned vs => Returned (v :: vs)
          | Raised e => Raised e
          end
      | Raised e => Raised e
      end
  end.

(** The generator, run to its end. *)
Definition extract_almaids (self : CsvHelper) : outcome (list string) :=
  first_columns (csv_line_list self).

(** Modelled from the spec: db_write.add_csv_line_to_source_csv_table, whose
    module is not among the sources.  Inserts one source_csv row. *)
Definition add_csv_line_to_source_csv_table (line : CsvLine)
    (job_timestamp : Z) : M W unit :=
  on_db (fun d =>
    mkDb (job_status_per_id d)
         (source_csv d ++ [mkSourceCsv job_timestamp line])
         (fetched_records d) (sent_records d) (put_post_responses d)
         (commits d)).

Definition add_to_source_csv_table (self : CsvHelper) (job_timestamp : Z)
  : M W unit :=
  for_each (csv_line_list self) (fun line =>
    add_csv_line_to_source_csv_table line job_timestamp).

End InputHelpers.

(* ===================================================================== *)
(** ** src/alma_rest.py (the flat, GET-only generation)                   *)
(* ===================================================================== *)

Section FlatAlmaRest.

Variable files : string -> option (list CsvLine).
Variable is_valid_alma_id : string -> bool.
Context {server : Type}.
Local Abbreviation W := (World server).
Local Abbreviation NetSt := (Net server).

(** The retrieval functions of rest_bibs, a module that is not among the
    sources, taken as parameters. *)
Record RestBibs : Type := mkRestBibs {
  get_bib : string -> M NetSt (option string);
  get_hol : string -> string -> M NetSt (option string);
  get_item : string -> string -> string -> M NetSt (option string);
  get_portfolio : string -> string -> M NetSt (option string);
  get_e_collection : string -> string -> M NetSt (option string)
}.

Variable rest_bibs : RestBibs.
Variable job_timestamp : Z.

(** Modelled from the spec: db_read_write.add_csv_line_to_session, whose
    module is not among the sources.  Inserts the row into source_csv and its
    first column into job_status_per_id with status "new" and the action. *)
Definition add_csv_line_to_session (line : CsvLine) (job_timestamp' : Z)
    (action : string) : M W unit :=
  alma_id' <- lift (first_column line) ;;
  on_db (fun d =>
    mkDb (job_status_per_id d
          ++ [mkJobStatus alma_id' "new" job_timestamp' action])
         (source_csv d ++ [mkSourceCsv job_timestamp' line])
         (fetched_records d) (sent_records d) (put_post_responses d)
         (commits d)).

(** Modelled from the spec: db_read_write.get_list_of_ids_for_job_with_status,
    whose module is not among the sources.  The identifiers of the job-status
    rows with the status and the timestamp. *)
Definition get_list_of_ids_for_job_with_status (status : string)
    (job_timestamp' : Z) : M W (list string) :=
  fun w =>
    (Returned
       (map alma_id
            (filter (fun r => ((job_status r =? status)%string
                               && (job_date r =? job_timestamp'))%bool)
                    (job_status_per_id (db w)))),
     w).

(** The row after an update of the status of the rows of an identifier and
    timestamp. *)
Definition stamp (status alma_id' : string) (job_timestamp' : Z)
    (r : JobStatusEntry) : JobStatusEntry :=
  if ((alma_id r =? alma_id')%string && (job_date r =? job_timestamp'))%bool
  then set_status status r else r.

(** Modelled from the spec: db_read_write.update_job_status_for_alma_id, whose
    module is not among the sources.  Sets the status of the rows of the
    identifier and the timestamp. *)
Definition update_job_status_for_alma_id (status alma_id' : string)
    (job_timestamp' : Z) : M W unit :=
  on_db (fun d =>
    set_job_status_rows d
      (map (stamp status alma_id' job_timestamp') (job_status_per_id d))).

(** Modelled from the spec: db_read_write.add_fetched_record_to_session, whose
    module is not among the sources.  Inserts one fetched-record row. *)
Definition add_fetched_record_to_session (alma_id' record_data : string)
    (job_timestamp' : Z) : M W unit :=
  add_response_content_to_fetched_records alma_id' record_data job_timestamp'.

Definition import_csv_to_db_tables (file_path action : string)
    (validation : bool) : M W unit :=
  if check_file_path files file_path then
    create_db_session ;;;
    csv_generator <-
      read_csv_contents files is_valid_alma_id file_path validation ;;
    for_each csv_generator (fun csv_line' =>
      add_csv_line_to_session csv_line' job_timestamp action) ;;;
    commit
  else
    logger_error [Str "No valid file path provided."].

(** What the loop does once [record_data] is bound (lines 72-76). *)
Definition record_outcome (alma_id' : string) (record_data : option string)
  : M W unit :=
  match record_data with
  | None =>
      update_job_status_for_alma_id "error" alma_id' job_timestamp
  | Some data =>
      update_job_status_for_alma_id "done" alma_id' job_timestamp ;;;
      add_fetched_record_to_session alma_id' data job_timestamp
  end.

(** The body of the loop over the identifiers (lines 48-76). *)
Definition for_alma_id (alma_id' : string) : M W unit :=
  let split_alma_id := split "," alma_id' in
  last_segment <- lift (index_last split_alma_id) ;;
  let id_prefix := slice_0_2 last_segment in
  record_data <-
    (if (id_prefix =? "99")%string then
       in_net (get_bib rest_bibs alma_id')
     else if (id_prefix =? "22")%string then
       mms_id <- lift (index split_alma_id 0) ;;
       hol_id <- lift (index split_alma_id 1) ;;
       in_net (get_hol rest_bibs mms_id hol_id)
     else if (id_prefix =? "23")%string then
       mms_id <- lift (index split_alma_id 0) ;;
       hol_id <- lift (index split_alma_id 1) ;;
       itm_id <- lift (index split_alma_id 2) ;;
       in_net (get_item rest_bibs mms_id hol_id itm_id)
     else if (id_prefix =? "53")%string then
       mms_id <- lift (index split_alma_id 0) ;;
       portfolio_id <- lift (index split_alma_id 1) ;;
       in_net (get_portfolio rest_bibs mms_id portfolio_id)
     else if (id_prefix =? "61")%string then
       mms_id <- lift (index split_alma_id 0) ;;
       collection_id <- lift (index split_alma_id 1) ;;
       in_net (get_e_collection rest_bibs mms_id collection_id)
     else
       logger_error
         [Str "Alma-Id does not have one of the expected prefixes (99, 22, 23 or 53)."] ;;;
       ret None) ;;
  record_outcome alma_id' record_data.

Definition get_records_via_api_for_csv_list (csv_path : string) : M W unit :=
  create_db_session ;;;
  import_csv_to_db_tables csv_path "GET" true ;;;
  list_of_ids <- get_list_of_ids_for_job_with_status "new" job_timestamp ;;
  for_each list_of_ids for_alma_id ;;;
  commit.

End FlatAlmaRest.

(* ===================================================================== *)
(** ** Concrete instances                                                 *)
(* ===================================================================== *)

(** A platform that answers from a script and keeps what it was sent. *)
Record Scripted : Type := mkScripted {
  pending : list Response;
  received : list Request
}.

Definition scripted_send (s : Scripted) (r : Request) : Response * Scripted :=
  match pending s with
  | resp :: rest => (resp, mkScripted rest (received s ++ [r]))
  | [] => (mkResponse 404 EmptyString, mkScripted [] (received s ++ [r]))
  end.

Definition script (answers : list Response) : Scripted :=
  mkScripted answers [].

Definition example_base_url : string := "https://alma.example.org/almaws/v1".
Definition example_key : string := "l7xx0123".

(** An API object over the generic client, for a base path. *)
Definition generic_object {server}
    (send : server -> Request -> Response * server)
    (api_key api_base_url path : string) : @ApiObject server :=
  let self := mkGenericApi path in
  mkApiObject
    (fun record_id => retrieve send api_key api_base_url self record_id None)
    (fun record_id => delete send api_key api_base_url self record_id None)
    (fun record_id record_data =>
       update send api_key api_base_url self record_id (Some record_data)
              None).

(** Modelled from the spec: the API classes of rest_bibs, rest_electronic and
    rest_users, modules that are not among the sources; each fixes the base
    path of the table of resource families over the generic client.  The
    set-membership call is left to the caller. *)
Definition path_modules {server}
    (send : server -> Request -> Response * server)
    (api_key api_base_url : string)
    (members : string -> M (Net server) (option (list string)))
  : @RestModules server :=
  let obj := generic_object send api_key api_base_url in
  mkRestModules
    (ret (obj "/bibs/"))
    (fun mms_id => ret (obj ("/bibs/" ++ mms_id ++ "/holdings/")))
    (fun mms_id hol_id =>
       ret (obj ("/bibs/" ++ mms_id ++ "/holdings/" ++ hol_id ++ "/items/")))
    (fun mms_id => ret (obj ("/bibs/" ++ mms_id ++ "/portfolios/")))
    (ret (obj "/electronic/e-collections/"))
    (fun collection_id =>
       ret (obj ("/electronic/e-collections/" ++ collection_id
                 ++ "/e-services/")))
    (fun collection_id service_id =>
       ret (obj ("/electronic/e-collections/" ++ collection_id
                 ++ "/e-services/" ++ service_id ++ "/portfolios/")))
    (ret (obj "/users/"))
    members.

Definition example_rest (members : option (list string))
  : @RestModules Scripted :=
  path_modules scripted_send example_key example_base_url
               (fun _ => ret members).

(** Modelled from the spec: the one-shot retrieval functions of rest_bibs, a
    module that is not among the sources; each takes the class of the kind,
    built from the ancestor identifiers, and calls retrieve once. *)
Definition example_rest_bibs : @RestBibs Scripted :=
  let obj := generic_object scripted_send example_key example_base_url in
  mkRestBibs
    (fun mms_id => api_retrieve (obj "/bibs/") mms_id)
    (fun mms_id hol_id =>
       api_retrieve (obj ("/bibs/" ++ mms_id ++ "/holdings/")) hol_id)
    (fun mms_id hol_id itm_id =>
       api_retrieve (obj ("/bibs/" ++ mms_id ++ "/holdings/" ++ hol_id
                          ++ "/items/")) itm_id)
    (fun mms_id portfolio_id =>
       api_retrieve (obj ("/bibs/" ++ mms_id ++ "/portfolios/")) portfolio_id)
    (fun mms_id collection_id =>
       api_retrieve (obj "/electronic/e-collections/") collection_id).

Definition start (answers : list Response) : World Scripted :=
  mkWorld empty_db (mkNet [] (script answers)).

Definition xml_body : string := "<?xml version='1.0'?><bib/>".

(** The API object of bibliographic records on the scripted platform. *)
Definition bibs_object : @ApiObject Scripted :=
  generic_object scripted_send example_key example_base_url "/bibs/".

(** A transform that gives nothing. *)
Definition no_output : string -> string -> option string := fun _ _ => None.

(** A platform about to answer 500 with the single byte 0xFF. *)
Definition answered_500_not_utf8 : Net Scripted :=
  mkNet [] (script [mkResponse 500 (String (ascii_of_nat 255) EmptyString)]).

(* ===================================================================== *)
(** ** Notions used in the statements                                     *)
(* ===================================================================== *)

(** Two pieces of client code that, run from states with the same platform,
    give the same result and leave the same platform: they can differ in the
    log only. *)
Definition same_traffic {server A} (m1 m2 : M (Net server) A) : Prop :=
  forall n n', remote n = remote n' ->
    fst (m1 n) = fst (m2 n') /\ remote (snd (m1 n)) = remote (snd (m2 n')).

(** The rows of a key exist and all have the status. *)
Definition row_status (d : Db) (id action : string) (ts : Z) (st : string)
  : Prop :=
  (exists r, In r (job_status_per_id d) /\ is_key id action ts r = true)
  /\ (forall r, In r (job_status_per_id d) -> is_key id action ts r = true ->
      job_status r = st).

(** The call returns and leaves the rows of a key with the status. *)
Definition ends_with {server} (run : outcome unit * World server)
    (id action : string) (ts : Z) (st : string) : Prop :=
  exists w', run = (Returned tt, w') /\ row_status (db w') id action ts st.

(** Orchestration code that leaves the database as it found it. *)
Definition keeps_db {server A} (m : M (World server) A) : Prop :=
  forall w r w', m w = (r, w') -> db w' = db w.

(** The last of the comma-separated segments of an identifier. *)
Definition last_segment (alma_id' : string) : string :=
  last (split "," alma_id') EmptyString.

(** What is said of an identifier whose last segment starts with 22: the
    holdings retrieval is called with the first segment and the second, and
    what it gives is recorded. *)
Definition holdings_dispatch {server} (rest_bibs : @RestBibs server)
    (job_timestamp : Z) (alma_id' : string) (w : World server) : Prop :=
  exists mms_id hol_id,
    nth_error (split "," alma_id') 0 = Some mms_id
    /\ nth_error (split "," alma_id') 1 = Some hol_id
    /\ for_alma_id rest_bibs job_timestamp alma_id' w
       = (record_data <- in_net (get_hol rest_bibs mms_id hol_id) ;;
          record_outcome job_timestamp alma_id' record_data) w.

(** No row of the table has the status error. *)
Definition no_error_row (d : Db) : bool :=
  forallb (fun r => negb (job_status r =? "error")%string)
          (job_status_per_id d).

(** The report the client makes of a response with another status than the
    expected one. *)
Definition failure_report (method url_parameters : string) (r : Response)
  : LogRecord :=
  mkLog ERROR
    [Str (method ++ " for record " ++ dquote ++ url_parameters ++ dquote
          ++ " failed. Reason: " ++ str_of_int (status_code r) ++ " - "
          ++ content r)].

(** What is said of a call whose response has another status than the
    expected one: no value, no exception, and the one report in the log. *)
Definition mismatch_is_reported {server}
    (send : server -> Request -> Response * server)
    (api_key api_base_url url_parameters method : string)
    (expected : Z) (record_data : option string) (n : Net server) : Prop :=
  forall r n1,
    switch_api_method send (api_base_url ++ url_parameters) method
      (create_alma_api_session api_key "xml") record_data n
    = (Returned r, n1) ->
    status_code r <> expected ->
    call_api send api_key api_base_url url_parameters method expected
      record_data n
    = (Returned None,
       mkNet (log n ++ [failure_report method url_parameters r]) (remote n1)).

(* ===================================================================== *)
(** ** Further notions used in the statements                             *)
(* ===================================================================== *)

(** What identifies a job-status row apart from its status. *)
Definition key_of (r : JobStatusEntry) : string * string * Z :=
  (alma_id r, job_action r, job_date r).

(** The second database is the first one grown: every table has the rows it
    had, in place, followed by new ones; a job-status row may have another
    status; no commit is taken back. *)
Definition extends (d d' : Db) : Prop :=
  (exists extra,
     map key_of (job_status_per_id d')
     = (map key_of (job_status_per_id d) ++ extra)%list)
  /\ (exists extra, source_csv d' = (source_csv d ++ extra)%list)
  /\ (exists extra, fetched_records d' = (fetched_records d ++ extra)%list)
  /\ (exists extra, sent_records d' = (sent_records d ++ extra)%list)
  /\ (exists extra, put_post_responses d' = (put_post_responses d ++ extra)%list)
  /\ (commits d <= commits d')%nat.

(** Orchestration code that only ever grows the database, whether it returns
    or raises. *)
Definition append_only {server A} (m : M (World server) A) : Prop :=
  forall w r w', m w = (r, w') -> extends (db w) (db w').

(** Orchestration code that leaves sent_records and put_post_responses as
    they are, whether it returns or raises. *)
Definition keeps_sent {server A} (m : M (World server) A) : Prop :=
  forall w r w', m w = (r, w') ->
    sent_records (db w') = sent_records (db w)
    /\ put_post_responses (db w') = put_post_responses (db w).

(** The headers of every session. *)
Definition xml_headers (api_key : string) : list (string * string) :=
  [("accept", "application/xml");
   ("Content-Type", "application/xml");
   ("authorization", "apikey " ++ api_key);
   ("User-Agent", "alma_rest/0.0.1")].

(** A call of the session with a method, for a URL string and with data,
    whose headers have among them the four the code sets. *)
Definition hands_over (req : Request) (method url : string)
    (data : option string) (api_key : string) : Prop :=
  req_method req = method
  /\ req_url req = url
  /\ req_data req = data
  /\ incl (xml_headers api_key) (req_headers req).

(** *** Further runs on the scripted platform *)

(** A body that opens as XML and carries an error list. *)
Definition xml_error_body : string :=
  "<?xml version='1.0'?><errorList><error/></errorList>".

(** The client state before an answer. *)
Definition before (answers : list Response) : Net Scripted :=
  mkNet [] (script answers).

(** The client state right after the GET for record 991234 went out. *)
Definition after_get_991234 (n : Net Scripted) : Net Scripted :=
  snd (switch_api_method scripted_send (example_base_url ++ "/bibs/991234")
         "GET" (create_alma_api_session example_key "xml") None n).

(** The rows of a file with the columns MMS-ID and Consortium-ID. *)
Definition two_rows : list CsvLine :=
  [ [("MMS-ID", "9981093873901234"); ("Consortium-ID", "XY0001")];
    [("MMS-ID", "9981093873911234"); ("Consortium-ID", "XY0002")] ].

(** A transform that gives a fixed body. *)
Definition fixed_output : string -> string -> option string :=
  fun _ _ => Some "<?xml version='1.0'?><bib>new</bib>".

(** No file exists. *)
Definition no_files : string -> option (list CsvLine) := fun _ => None.

(** A job that has the record 991234 at new, before an answer 200 with an
    XML body. *)
Definition job_with_new_row : World Scripted :=
  mkWorld (mkDb [mkJobStatus "991234" "new" 7 "GET"] [] [] [] [] 0)
          (before [mkResponse 200 xml_body]).

(** Retrieval functions whose bibliographic retrieval gives the empty
    string. *)
Definition empty_body_bibs : @RestBibs Scripted :=
  mkRestBibs (fun _ => ret (Some EmptyString))
             (fun _ _ => ret None) (fun _ _ _ => ret None)
             (fun _ _ => ret None) (fun _ _ => ret None).

(* ===================================================================== *)
(** ** Properties of the REST client                                      *)
(* ===================================================================== *)

Lemma string_app_assoc (a b c : string) : (a ++ b) ++ c = a ++ (b ++ c).
Proof. induction a as [|x a IH]; simpl; [reflexivity | now rewrite IH]. Qed.

Section RestCallApiFacts.

Context {server : Type}.
Variable send : server -> Request -> Response * server.
Variables (api_key api_base_url : string).

(** When the transport is reached the log is as it was. *)
Lemma switch_api_method_returned alma_url method session record_data
    (n n1 : Net server) (r : Response) :
  switch_api_method send alma_url method session record_data n
  = (Returned r, n1) ->
  log n1 = log n.
Proof.
  unfold switch_api_method, session_request.
  repeat match goal with
         | |- context [if ?b then _ else _] => destruct b
         end;
    try (destruct (send (remote n) _) as [r' s'];
         intros E; inversion E; subst; reflexivity).
  unfold bind, logger_error, emit, raise; simpl. discriminate.
Qed.

(** The parameters only ever reach the log: what is sent, what comes back
    and what is returned are those of the call without parameters. *)
Lemma add_parameters_inert url parameters (n : Net server) :
  exists extra,
    add_parameters url parameters n
    = (Returned tt, mkNet (log n ++ extra) (remote n)).
Proof.
  unfold add_parameters, bind, logger_info, emit, ret; simpl.
  eexists. reflexivity.
Qed.

(** On a matching status, a body that is text, has no error list and does
    not open with the XML declaration stops the call at the statement that
    builds the log line, unless the expected status is 204. *)
Lemma call_api_non_xml_raises url_parameters method expected record_data
    (n n1 : Net server) (r : Response) :
  switch_api_method send (api_base_url ++ url_parameters) method
    (create_alma_api_session api_key "xml") record_data n
  = (Returned r, n1) ->
  status_code r = expected ->
  expected <> 204 ->
  utf8_valid (content r) = true ->
  contains "<errorList>" (content r) = false ->
  startswith (content r) "<?xml" = false ->
  fst (call_api send api_key api_base_url url_parameters method expected
         record_data n)
  = Raised TypeError.
Proof.
  intros Hsw Hst H204 Hutf Herr Hxml.
  unfold call_api, bind. rewrite Hsw.
  apply Z.eqb_eq in Hst. rewrite Hst.
  unfold lift, decode_utf8. rewrite Hutf.
  unfold logger_info, emit; simpl.
  rewrite Herr, Hxml.
  apply Z.eqb_neq in H204. rewrite H204. reflexivity.
Qed.

(** Where the report is made: a call whose response has another status than
    the expected one, and a body that is valid UTF-8, returns no value and
    adds exactly one record to the log, an error made of the method, the
    path, the received status and the body; nothing is raised. *)
Lemma call_api_status_mismatch url_parameters method expected record_data
    (n n1 : Net server) (r : Response) :
  switch_api_method send (api_base_url ++ url_parameters) method
    (create_alma_api_session api_key "xml") record_data n
  = (Returned r, n1) ->
  status_code r <> expected ->
  utf8_valid (content r) = true ->
  call_api send api_key api_base_url url_parameters method expected
    record_data n
  = (Returned None,
     mkNet (log n ++ [failure_report method url_parameters r]) (remote n1)).
Proof.
  intros Hsw Hst Hutf.
  pose proof (switch_api_method_returned _ _ _ _ _ _ _ Hsw) as Hlog.
  unfold call_api, bind. rewrite Hsw.
  apply Z.eqb_neq in Hst. rewrite Hst.
  unfold lift, decode_utf8. rewrite Hutf.
  unfold logger_error, emit, ret, failure_report; simpl.
  rewrite Hlog. repeat (rewrite !string_app_assoc; simpl). reflexivity.
Qed.


Lemma same_traffic_ret {A} (a : A) :
  @same_traffic server A (ret a) (ret a).
Proof. intros n n' E; split; [reflexivity | exact E]. Qed.

Lemma same_traffic_raise {A} (e : exn) :
  @same_traffic server A (raise e) (raise e).
Proof. intros n n' E; split; [reflexivity | exact E]. Qed.

Lemma same_traffic_lift {A} (o : outcome A) :
  @same_traffic server A (lift o) (lift o).
Proof. intros n n' E; split; [reflexivity | exact E]. Qed.

Lemma same_traffic_emit lv m :
  @same_traffic server unit (emit lv m) (emit lv m).
Proof. intros n n' E; split; [reflexivity | exact E]. Qed.

Lemma same_traffic_bind {A B} (m1 m2 : M (Net server) A)
    (k1 k2 : A -> M (Net server) B) :
  same_traffic m1 m2 -> (forall a, same_traffic (k1 a) (k2 a)) ->
  same_traffic (bind m1 k1) (bind m2 k2).
Proof.
  intros Hm Hk n n' E. unfold bind.
  destruct (Hm n n' E) as [Hf Hr].
  destruct (m1 n) as [[a|e] n1], (m2 n') as [[a'|e'] n1']; simpl in *;
    try discriminate.
  - inversion Hf; subst. apply Hk, Hr.
  - inversion Hf; subst. split; [reflexivity | assumption].
Qed.

Lemma same_traffic_if {A} (b : bool) (m1 m2 m1' m2' : M (Net server) A) :
  same_traffic m1 m1' -> same_traffic m2 m2' ->
  same_traffic (if b then m1 else m2) (if b then m1' else m2').
Proof. destruct b; auto. Qed.

Lemma same_traffic_session_request session method url data :
  same_traffic (session_request send session method url data)
               (session_request send session method url data).
Proof.
  intros n n' E. unfold session_request. rewrite E.
  destruct (send (remote n') _); split; reflexivity.
Qed.

(** Adding parameters, guarded or not, is no traffic at all. *)
Lemma same_traffic_add_parameters (b : bool) url parameters :
  @same_traffic server unit
    (if b then add_parameters url parameters else ret tt) (ret tt).
Proof.
  intros n n' E. destruct b; [|split; [reflexivity | exact E]].
  destruct (add_parameters_inert url parameters n) as [extra ->].
  split; [reflexivity | exact E].
Qed.

Create HintDb traffic.
#[local] Hint Resolve same_traffic_ret same_traffic_raise same_traffic_lift
  same_traffic_emit same_traffic_session_request same_traffic_add_parameters
  : traffic.

Ltac traffic :=
  repeat first
    [ solve [auto with traffic]
    | apply same_traffic_bind; [|intros]
    | apply same_traffic_if ].

Lemma same_traffic_call_api url_parameters method expected record_data :
  same_traffic
    (call_api send api_key api_base_url url_parameters method expected
       record_data)
    (call_api send api_key api_base_url url_parameters method expected
       record_data).
Proof.
  unfold call_api, switch_api_method, logger_info, logger_warning,
    logger_error.
  traffic.
Qed.

#[local] Hint Resolve same_traffic_call_api : traffic.

(** Every operation of the client, given URL parameters, sends what it sends
    without them and returns what it returns without them. *)
Lemma url_parameters_never_sent (self : GenericApi) record_id record_data
    url_parameters :
  same_traffic (create send api_key api_base_url self record_data
                  url_parameters)
               (create send api_key api_base_url self record_data None)
  /\ same_traffic (retrieve send api_key api_base_url self record_id
                     url_parameters)
                  (retrieve send api_key api_base_url self record_id None)
  /\ same_traffic (update send api_key api_base_url self record_id
                     record_data url_parameters)
                  (update send api_key api_base_url self record_id
                     record_data None)
  /\ same_traffic (delete send api_key api_base_url self record_id
                     url_parameters)
                  (delete send api_key api_base_url self record_id None).
Proof.
  unfold create, retrieve, update, delete, logger_info; simpl truthy_dict.
  split; [|split; [|split]]; traffic.
Qed.

End RestCallApiFacts.

(** *** The client on a scripted platform *)

(** C1 (code shown at the failing input): retrieve on /bibs/ for record
    991234 with the parameters view=brief sends its one request to the base
    URL followed by the path and the record id; the encoded parameters
    [view=brief] are not part of the URL. *)
Theorem retrieve_with_parameters_sends_bare_url :
  let n := mkNet [] (script [mkResponse 200 xml_body]) in
  let after :=
    snd (retrieve scripted_send example_key example_base_url
           (mkGenericApi "/bibs/") "991234" (Some [("view", "brief")]) n) in
  map req_url (received (remote after))
  = [example_base_url ++ "/bibs/" ++ "991234"]
  /\ urlencode [("view", "brief")] = "view=brief"
  /\ map req_url (received (remote after))
     <> [example_base_url ++ "/bibs/" ++ "991234" ++ "?"
         ++ urlencode [("view", "brief")]].
Proof.
  vm_compute. split; [reflexivity | split; [reflexivity | discriminate]].
Qed.

(** C2 (code shown at the failing input): retrieve answered with the expected
    status 200 and the body [plain text] raises TypeError; no body is
    returned and no error is logged. *)
Theorem retrieve_non_xml_body_raises :
  let n := mkNet [] (script [mkResponse 200 "plain text"]) in
  let run :=
    retrieve scripted_send example_key example_base_url
      (mkGenericApi "/bibs/") "991234" None n in
  fst run = Raised TypeError
  /\ at_level ERROR (log (snd run)) = []
  /\ startswith "plain text" "<?xml" = false.
Proof. vm_compute. repeat split. Qed.

(** A run on the scripted platform: GET answered 500 where 200 is expected,
    with a body that is text. *)
Lemma call_api_status_mismatch_witness :
  call_api scripted_send example_key example_base_url "/bibs/991234" "GET"
    200 None (mkNet [] (script [mkResponse 500 "<error/>"]))
  = (Returned None,
     mkNet ([] ++ [failure_report "GET" "/bibs/991234"
                     (mkResponse 500 "<error/>")])
           (remote
              (mkNet []
                 (mkScripted []
                    [mkRequest "GET" (example_base_url ++ "/bibs/991234")
                       (create_alma_api_session example_key "xml") None])))).
Proof.
  apply (call_api_status_mismatch scripted_send example_key example_base_url
           "/bibs/991234" "GET" 200 None
           (mkNet [] (script [mkResponse 500 "<error/>"]))).
  - reflexivity.
  - simpl. discriminate.
  - reflexivity.
Defined.

(** C3 (code shown at the failing input): GET answered 500, where 200 is
    expected, with a body of the single byte 0xFF, which is not UTF-8: the
    call raises UnicodeDecodeError where it builds the error line, logs
    nothing and so does not make the report of a response of another
    status. *)
Theorem call_api_mismatch_not_utf8_raises :
  fst (call_api scripted_send example_key example_base_url "/bibs/991234"
         "GET" 200 None answered_500_not_utf8) = Raised UnicodeDecodeError
  /\ log (snd (call_api scripted_send example_key example_base_url
                 "/bibs/991234" "GET" 200 None answered_500_not_utf8)) = []
  /\ ~ mismatch_is_reported scripted_send example_key example_base_url
         "/bibs/991234" "GET" 200 None answered_500_not_utf8.
Proof.
  split; [reflexivity | split; [reflexivity |]].
  intros Hclaim.
  specialize (Hclaim _ _ eq_refl).
  simpl in Hclaim.
  assert (Hne : 500 <> 200) by discriminate.
  specialize (Hclaim Hne).
  vm_compute in Hclaim. discriminate Hclaim.
Qed.

(* ===================================================================== *)
(** ** Properties of the orchestration (alma_rest package)                *)
(* ===================================================================== *)

Section AlmaRestFacts.
Context {server : Type}.
Variable rest : @RestModules server.
Variable job_timestamp : Z.

Lemma keeps_db_in_net {A} (m : M (Net server) A) : keeps_db (in_net m).
Proof.
  intros w r w'. unfold in_net. destruct (m (net w)) as [r' n']. intros E.
  inversion E; subst. reflexivity.
Qed.

Lemma keeps_db_lift {A} (o : outcome A) : @keeps_db server A (lift o).
Proof. intros w r w' E. inversion E; subst. reflexivity. Qed.

Lemma keeps_db_raise {A} (e : exn) : @keeps_db server A (raise e).
Proof. intros w r w' E. inversion E; subst. reflexivity. Qed.

Lemma keeps_db_emit lv m : @keeps_db server unit (emit lv m).
Proof. intros w r w' E. inversion E; subst. reflexivity. Qed.

Lemma keeps_db_bind {A B} (m : M (World server) A)
    (k : A -> M (World server) B) :
  keeps_db m -> (forall a, keeps_db (k a)) -> keeps_db (bind m k).
Proof.
  intros Hm Hk w r w'. unfold bind.
  destruct (m w) as [[a|e] w1] eqn:E.
  - intros E'. rewrite (Hk _ _ _ _ E'). exact (Hm _ _ _ E).
  - intros E'. inversion E'; subst. exact (Hm _ _ _ E).
Qed.

Lemma keeps_db_if {A} (b : bool) (m1 m2 : M (World server) A) :
  keeps_db m1 -> keeps_db m2 -> keeps_db (if b then m1 else m2).
Proof. destruct b; auto. Qed.

Lemma keeps_db_instantiate_api_class alma_id' api record_type :
  keeps_db (instantiate_api_class rest alma_id' api record_type).
Proof.
  unfold instantiate_api_class, logger_error.
  repeat first
    [ apply keeps_db_in_net | apply keeps_db_lift | apply keeps_db_raise
    | apply keeps_db_emit
    | apply keeps_db_bind; [|intros]
    | apply keeps_db_if ].
Qed.


Lemma is_known_method_false method :
  ~ In method ["DELETE"; "GET"; "PUT"; "POST"] ->
  is_known_method method = false.
Proof.
  intros Hout. unfold is_known_method.
  destruct (existsb (String.eqb method) ["DELETE"; "GET"; "PUT"; "POST"])
    eqn:E; [|reflexivity].
  apply existsb_exists in E. destruct E as [m [Hin Heq]].
  apply String.eqb_eq in Heq. subst m. contradiction.
Qed.

Lemma mark_own status st id action ts :
  mark status id action ts (mkJobStatus id st ts action)
  = mkJobStatus id status ts action.
Proof.
  unfold mark, is_key; simpl.
  now rewrite !String.eqb_refl, Z.eqb_refl.
Qed.

Lemma mark_other_action status st id action action' ts :
  action' <> action ->
  mark status id action ts (mkJobStatus id st ts action')
  = mkJobStatus id st ts action'.
Proof.
  intros Hne. unfold mark, is_key; simpl.
  apply String.eqb_neq in Hne. rewrite Hne.
  now rewrite andb_false_r.
Qed.

(** C6: with the method POST the call raises NotImplementedError and the
    state is the one it started from; with a method outside DELETE, GET, PUT
    and POST it raises ValueError, the database and the platform are as they
    were, and the log has one more record, an error.  No job-status row is
    registered and nothing is written in either case. *)
Theorem call_api_for_record_rejects_method alma_id' api record_type method
    manipulate_record (w : World server) :
  call_api_for_record rest job_timestamp alma_id' api record_type "POST"
    manipulate_record w
  = (Raised NotImplementedError, w)
  /\ (~ In method ["DELETE"; "GET"; "PUT"; "POST"] ->
      call_api_for_record rest job_timestamp alma_id' api record_type method
        manipulate_record w
      = (Raised ValueError,
         mkWorld (db w)
           (mkNet (log (net w)
                   ++ [mkLog ERROR
                         [Str ("Provided method " ++ method
                               ++ " does not match any of the expected values.")]])
                  (remote (net w))))).
Proof.
  split.
  - reflexivity.
  - intros Hout. unfold call_api_for_record.
    rewrite (is_known_method_false _ Hout). reflexivity.
Qed.

(** C7: with the method PUT, a retrieval that gives a body and a transform
    that gives nothing, the call returns; the job-status table gains two
    rows, (GET, done) and (PUT, error), in this order; sent_records and
    put_post_responses are as they were; fetched_records gains the body.
    Rows the table already had for the identifier and timestamp are stamped
    like the new ones. *)
Theorem put_without_transform_output alma_id' api record_type record_id
    (f : string -> string -> option string) api_obj
    (w w0 : World server) data n1 :
  instantiate_api_class rest alma_id' api record_type w
  = (Returned api_obj, w0) ->
  index_last (split "," alma_id') = Returned record_id ->
  api_retrieve api_obj record_id (net w0) = (Returned (Some data), n1) ->
  data <> EmptyString ->
  truthy (f alma_id' data) = false ->
  call_api_for_record rest job_timestamp alma_id' api record_type "PUT"
    (Some f) w
  = (Returned tt,
     mkWorld
       (mkDb
          (map (mark "error" alma_id' "PUT" job_timestamp)
               (map (mark "done" alma_id' "GET" job_timestamp)
                    (job_status_per_id (db w)))
           ++ [mkJobStatus alma_id' "done" job_timestamp "GET";
               mkJobStatus alma_id' "error" job_timestamp "PUT"])
          (source_csv (db w))
          (fetched_records (db w) ++ [mkBody alma_id' job_timestamp data])
          (sent_records (db w))
          (put_post_responses (db w))
          (S (S (commits (db w)))))
       (mkNet (log n1
               ++ [mkLog ERROR
                     [Str ("Could not manipulate data of record "
                           ++ alma_id' ++ ".")]])
              (remote n1))).
Proof.
  intros Hinst Hidx Hget Hdata Hf.
  pose proof (keeps_db_instantiate_api_class _ _ _ _ _ _ Hinst) as Hdb.
  unfold call_api_for_record.
  unfold bind at 1. simpl.
  unfold bind at 1. simpl.
  unfold bind at 1. rewrite Hinst.
  unfold bind at 1. simpl.
  unfold bind at 1. unfold lift at 1. rewrite Hidx.
  unfold bind at 1. unfold in_net at 1. simpl. rewrite Hget.
  destruct data as [|c data]; [contradiction|].
  destruct (f alma_id' (String c data)) as [[|c' new]|] eqn:Ef;
    try discriminate Hf.
  all: unfold bind, add_response_content_to_fetched_records,
         update_job_status, commit, add_alma_id_to_job_status_per_id, on_db,
         logger_error, emit, ret, with_db, set_job_status_rows; simpl.
  all: rewrite Hdb, !map_app; simpl map.
  all: rewrite !mark_own, (mark_other_action "error" "done") by discriminate.
  all: rewrite <- !app_assoc; reflexivity.
Qed.

Lemma is_key_mark st id action ts id' action' ts' r :
  is_key id' action' ts' (mark st id action ts r) = is_key id' action' ts' r.
Proof. unfold mark. destruct (is_key id action ts r); reflexivity. Qed.

Lemma marked_rows st id action ts rows d :
  job_status_per_id d = map (mark st id action ts) rows ->
  (exists r, In r rows /\ is_key id action ts r = true) ->
  row_status d id action ts st.
Proof.
  intros Hrows [r0 [Hin0 Hk0]]. unfold row_status. rewrite Hrows. split.
  - exists (mark st id action ts r0). split.
    + now apply in_map.
    + now rewrite is_key_mark.
  - intros r Hin Hk. apply in_map_iff in Hin. destruct Hin as [r1 [<- _]].
    rewrite is_key_mark in Hk. unfold mark. now rewrite Hk.
Qed.

Lemma is_key_own id st ts action :
  is_key id action ts (mkJobStatus id st ts action) = true.
Proof.
  unfold is_key; simpl. now rewrite !String.eqb_refl, Z.eqb_refl.
Qed.

Ltac run_db :=
  unfold bind, add_response_content_to_fetched_records, update_job_status,
    commit, add_alma_id_to_job_status_per_id, add_put_post_response,
    add_sent_record, check_data_sent_equals_response, on_db, logger_error,
    logger_info, logger_warning, emit, ret, with_db, set_job_status_rows;
  simpl.

Ltac to_retrieval Hinst Hidx Hget :=
  unfold call_api_for_record;
  unfold bind at 1; simpl;
  unfold bind at 1; simpl;
  unfold bind at 1; rewrite Hinst;
  unfold bind at 1; simpl;
  unfold bind at 1; unfold lift at 1; rewrite Hidx;
  unfold bind at 1; unfold in_net at 1; simpl; rewrite Hget.

Ltac last_row_keyed :=
  eexists; split;
  [ apply in_or_app; right; left; reflexivity | apply is_key_own ].

(** C9: how each phase of call_api_for_record tells success from failure.
    Once the API object is there: whatever the method, a retrieval that gives
    nothing or the empty string leaves the GET row at error, and with the
    method GET any other body leaves it at done; after a retrieval that gave
    a body, a deletion leaves the DELETE row at error when it gives nothing
    and at done when it gives any string, the empty one too; an update leaves
    the PUT row at error when it gives nothing or the empty string, and at
    done otherwise. *)
Theorem success_test_by_phase alma_id' api record_type record_id api_obj
    (w w0 : World server) :
  instantiate_api_class rest alma_id' api record_type w
  = (Returned api_obj, w0) ->
  index_last (split "," alma_id') = Returned record_id ->
  (forall method manipulate_record r n1,
     In method ["DELETE"; "GET"; "PUT"] ->
     api_retrieve api_obj record_id (net w0) = (Returned r, n1) ->
     truthy r = false ->
     ends_with
       (call_api_for_record rest job_timestamp alma_id' api record_type
          method manipulate_record w)
       alma_id' "GET" job_timestamp "error")
  /\ (forall manipulate_record r n1,
       api_retrieve api_obj record_id (net w0) = (Returned r, n1) ->
       truthy r = true ->
       ends_with
         (call_api_for_record rest job_timestamp alma_id' api record_type
            "GET" manipulate_record w)
         alma_id' "GET" job_timestamp "done")
  /\ (forall manipulate_record r n1 d n2,
       api_retrieve api_obj record_id (net w0) = (Returned r, n1) ->
       truthy r = true ->
       api_delete api_obj record_id n1 = (Returned d, n2) ->
       ends_with
         (call_api_for_record rest job_timestamp alma_id' api record_type
            "DELETE" manipulate_record w)
         alma_id' "DELETE" job_timestamp
         (match d with None => "error" | Some _ => "done" end))
  /\ (forall f data n1 new u n2,
       api_retrieve api_obj record_id (net w0)
       = (Returned (Some data), n1) ->
       data <> EmptyString ->
       f alma_id' data = Some new ->
       new <> EmptyString ->
       api_update api_obj record_id new n1 = (Returned u, n2) ->
       ends_with
         (call_api_for_record rest job_timestamp alma_id' api record_type
            "PUT" (Some f) w)
         alma_id' "PUT" job_timestamp
         (if truthy u then "done" else "error")).
Proof.
  intros Hinst Hidx.
  split; [|split; [|split]].
  - intros method manipulate_record r n1 Hm Hget Hr.
    assert (Hm' : method = "DELETE" \/ method = "GET" \/ method = "PUT")
      by (simpl in Hm; intuition auto).
    destruct r as [[|c data]|]; try discriminate Hr.
    all: destruct Hm' as [-> | [-> | ->]].
    all: eexists; split;
      [ to_retrieval Hinst Hidx Hget; run_db; reflexivity
      | eapply marked_rows; [reflexivity | last_row_keyed] ].
  - intros manipulate_record r n1 Hget Hr.
    destruct r as [[|c data]|]; try discriminate Hr.
    eexists; split;
      [ to_retrieval Hinst Hidx Hget; run_db; reflexivity
      | eapply marked_rows; [reflexivity | last_row_keyed] ].
  - intros manipulate_record r n1 d n2 Hget Hr Hdel.
    destruct r as [[|c data]|]; try discriminate Hr.
    destruct d as [d|].
    all: eexists; split;
      [ to_retrieval Hinst Hidx Hget; run_db;
        unfold in_net; simpl; rewrite Hdel; reflexivity
      | eapply marked_rows; [reflexivity | last_row_keyed] ].
  - intros f data n1 new u n2 Hget Hdata Hf Hnew Hupd.
    destruct data as [|c data]; [contradiction|].
    destruct new as [|c' new]; [contradiction|].
    unfold ends_with.
    to_retrieval Hinst Hidx Hget; run_db; rewrite Hf;
      unfold in_net; simpl; rewrite Hupd; simpl.
    destruct u as [[|c'' u]|]; simpl;
      try match goal with
          | |- context [strings_eqb ?a ?b] => destruct (strings_eqb a b)
          end.
    all: eexists; split;
      [ reflexivity | eapply marked_rows; [reflexivity | last_row_keyed] ].
Qed.

End AlmaRestFacts.

(** *** The set entry point *)

Section SetFacts.
Context {server : Type}.
Variable rest : @RestModules server.
Variable job_timestamp : Z.

Lemma mark_other_id status st id id' action action' ts :
  id' <> id ->
  mark status id action ts (mkJobStatus id' st ts action')
  = mkJobStatus id' st ts action'.
Proof.
  intros Hne. unfold mark, is_key. cbn [alma_id job_action job_date].
  apply String.eqb_neq in Hne. now rewrite Hne.
Qed.

(** The guard on the member list never fires: the call is the one without
    it. *)
Lemma call_api_for_set_guard_is_dead set_id api record_type method
    manipulate_record :
  call_api_for_set rest job_timestamp set_id api record_type method
    manipulate_record
  = (create_db_session ;;;
     add_alma_id_to_job_status_per_id "GET" set_id job_timestamp ;;;
     alma_id_list <-
       in_net (rest_conf_retrieve_set_member_alma_ids rest set_id) ;;
     ret tt ;;;
     call_api_for_list rest job_timestamp alma_id_list api record_type method
       manipulate_record ;;;
     update_job_status "done" set_id "GET" job_timestamp ;;;
     commit ;;;
     close).
Proof. reflexivity. Qed.

(** When the Sets API gives no collection, the call raises TypeError with
    the row of the set registered under the identifier GET, still new, and
    with the log the Sets API left. *)
Lemma call_api_for_set_absent_members set_id api record_type method
    manipulate_record (w : World server) n1 :
  rest_conf_retrieve_set_member_alma_ids rest set_id (net w)
  = (Returned None, n1) ->
  call_api_for_set rest job_timestamp set_id api record_type method
    manipulate_record w
  = (Raised TypeError,
     mkWorld
       (set_job_status_rows (db w)
          (job_status_per_id (db w)
           ++ [mkJobStatus "GET" "new" job_timestamp set_id])%list)
       n1).
Proof.
  intros Hres. unfold call_api_for_set, call_api_for_list.
  unfold bind at 1; simpl.
  unfold bind at 1; simpl.
  unfold bind at 1, in_net at 1; simpl. rewrite Hres.
  reflexivity.
Qed.

(** When it gives an empty collection, the call returns; the row of the set
    is registered under the identifier GET, and the closing update, keyed
    by the set id, leaves it new unless the set id is GET itself. *)
Lemma call_api_for_set_empty_members set_id api record_type method
    manipulate_record (w : World server) n1 :
  rest_conf_retrieve_set_member_alma_ids rest set_id (net w)
  = (Returned (Some []), n1) ->
  set_id <> "GET" ->
  exists w',
    call_api_for_set rest job_timestamp set_id api record_type method
      manipulate_record w
    = (Returned tt, w')
    /\ job_status_per_id (db w')
       = (map (mark "done" set_id "GET" job_timestamp)
              (job_status_per_id (db w))
          ++ [mkJobStatus "GET" "new" job_timestamp set_id])%list
    /\ at_level ERROR (log (net w')) = at_level ERROR (log n1).
Proof.
  intros Hres Hne. unfold call_api_for_set, call_api_for_list.
  unfold bind at 1; simpl.
  unfold bind at 1; simpl.
  unfold bind at 1, in_net at 1; simpl. rewrite Hres.
  unfold bind, log_success_rate, update_job_status, commit, close, on_db,
    logger_info, emit, ret, create_db_session; simpl.
  eexists. split; [reflexivity|]. simpl. split.
  - rewrite map_app. cbn [map]. f_equal.
    rewrite mark_other_id by congruence. reflexivity.
  - unfold at_level. rewrite filter_app. simpl. now rewrite app_nil_r.
Qed.

End SetFacts.

(** *** The orchestration on a scripted platform *)

(** A run on the scripted platform: the method PATCH. *)
Lemma call_api_for_record_rejects_method_witness :
  ~ In "PATCH" ["DELETE"; "GET"; "PUT"; "POST"]
  /\ call_api_for_record (example_rest None) 7 "991234" "bibs" "bibs" "PATCH"
       None (start [])
     = (Raised ValueError,
        mkWorld empty_db
          (mkNet [mkLog ERROR
                    [Str "Provided method PATCH does not match any of the expected values."]]
                 (script []))).
Proof.
  assert (Hout : ~ In "PATCH" ["DELETE"; "GET"; "PUT"; "POST"]).
  { simpl. intros [H | [H | [H | [H | H]]]];
      [discriminate H | discriminate H | discriminate H | discriminate H
      | exact H]. }
  split; [exact Hout|].
  exact (proj2 (call_api_for_record_rejects_method (example_rest None) 7
                  "991234" "bibs" "bibs" "PATCH" None (start [])) Hout).
Defined.

(** A run on the scripted platform: record 991234 is fetched and the
    transform gives nothing. *)
Lemma put_without_transform_output_witness :
  call_api_for_record (example_rest None) 7 "991234" "bibs" "bibs" "PUT"
    (Some no_output) (start [mkResponse 200 xml_body])
  = (Returned tt,
     mkWorld
       (mkDb [mkJobStatus "991234" "done" 7 "GET";
              mkJobStatus "991234" "error" 7 "PUT"]
             [] [mkBody "991234" 7 xml_body] [] [] 2)
       (mkNet
          (log (snd (api_retrieve bibs_object "991234"
                       (net (start [mkResponse 200 xml_body]))))
           ++ [mkLog ERROR
                 [Str "Could not manipulate data of record 991234."]])
          (remote (snd (api_retrieve bibs_object "991234"
                          (net (start [mkResponse 200 xml_body]))))))).
Proof.
  apply (put_without_transform_output (example_rest None) 7 "991234" "bibs"
           "bibs" "991234" no_output bibs_object
           (start [mkResponse 200 xml_body])
           (start [mkResponse 200 xml_body]) xml_body
           (snd (api_retrieve bibs_object "991234"
                   (net (start [mkResponse 200 xml_body]))))).
  - reflexivity.
  - reflexivity.
  - reflexivity.
  - discriminate.
  - reflexivity.
Defined.

(** The generic client on a 204 answer with an empty body: delete returns
    the empty string. *)
Lemma delete_204_empty_body {server}
    (send : server -> Request -> Response * server)
    (api_key api_base_url : string) (self : GenericApi) record_id
    (n : Net server) :
  fst (send (remote n)
         (mkRequest "DELETE" (api_base_url ++ base_path self ++ record_id)
            (create_alma_api_session api_key "xml") None))
  = mkResponse 204 EmptyString ->
  fst (delete send api_key api_base_url self record_id None n)
  = Returned (Some EmptyString).
Proof.
  intros Hsend.
  unfold delete, call_api, switch_api_method, session_request, bind,
    logger_info, emit; simpl.
  destruct (send (remote n) _) as [r s'] eqn:E. simpl in Hsend. subst r.
  reflexivity.
Qed.

(** A run on the scripted platform: record 991234 is fetched, and its
    deletion is answered 204 with an empty body. *)
Lemma success_test_by_phase_witness :
  ends_with
    (call_api_for_record (example_rest None) 7 "991234" "bibs" "bibs"
       "DELETE" None
       (start [mkResponse 200 xml_body; mkResponse 204 EmptyString]))
    "991234" "DELETE" 7 "done".
Proof.
  pose proof (success_test_by_phase (example_rest None) 7 "991234" "bibs"
                "bibs" "991234" bibs_object
                (start [mkResponse 200 xml_body; mkResponse 204 EmptyString])
                (start [mkResponse 200 xml_body; mkResponse 204 EmptyString])
                eq_refl eq_refl) as [_ [_ [Hdelete _]]].
  apply (Hdelete None (Some xml_body)
           (snd (api_retrieve bibs_object "991234"
                   (net (start [mkResponse 200 xml_body;
                                mkResponse 204 EmptyString]))))
           (Some EmptyString)
           (snd (api_delete bibs_object "991234"
                   (snd (api_retrieve bibs_object "991234"
                           (net (start [mkResponse 200 xml_body;
                                        mkResponse 204 EmptyString]))))))).
  - reflexivity.
  - reflexivity.
  - reflexivity.
Defined.

(** C4 (code shown at the failing inputs): for the set 12345, when the Sets
    API gives no collection the call raises TypeError, and when it gives an
    empty collection the call returns; either way no error is logged and no
    job-status row is at error. *)
Theorem call_api_for_set_ignores_missing_members :
  fst (call_api_for_set (example_rest None) 7 "12345" "bibs" "bibs" "GET"
         None (start []))
  = Raised TypeError
  /\ at_level ERROR
       (log (net (snd (call_api_for_set (example_rest None) 7 "12345" "bibs"
                         "bibs" "GET" None (start [])))))
     = []
  /\ no_error_row
       (db (snd (call_api_for_set (example_rest None) 7 "12345" "bibs"
                   "bibs" "GET" None (start []))))
     = true
  /\ fst (call_api_for_set (example_rest (Some [])) 7 "12345" "bibs" "bibs"
            "GET" None (start []))
     = Returned tt
  /\ at_level ERROR
       (log (net (snd (call_api_for_set (example_rest (Some [])) 7 "12345"
                         "bibs" "bibs" "GET" None (start [])))))
     = []
  /\ no_error_row
       (db (snd (call_api_for_set (example_rest (Some [])) 7 "12345" "bibs"
                   "bibs" "GET" None (start []))))
     = true.
Proof. vm_compute. repeat split. Qed.

(** C5 (code shown at the failing input): for the set 12345 the row
    registered for the set has GET in the alma_id field and 12345 in the
    action field; no later update matches it, so it is still new when the
    call returns.  The row call_api_for_record registers for record 991234
    has the identifier in alma_id and GET in the action. *)
Theorem call_api_for_set_registers_swapped_row :
  job_status_per_id
    (db (snd (call_api_for_set (example_rest (Some [])) 7 "12345" "bibs"
                "bibs" "GET" None (start []))))
  = [mkJobStatus "GET" "new" 7 "12345"]
  /\ job_status_per_id
       (db (snd (call_api_for_record (example_rest None) 7 "991234" "bibs"
                   "bibs" "GET" None (start [mkResponse 200 xml_body]))))
     = [mkJobStatus "991234" "done" 7 "GET"].
Proof. vm_compute. split; reflexivity. Qed.

(* ===================================================================== *)
(** ** Properties of the flat generation and of the CSV helper            *)
(* ===================================================================== *)

Lemma split_not_nil sep s : split sep s <> [].
Proof.
  destruct s as [|c s]; simpl; [discriminate|].
  destruct (Ascii.eqb c sep); [discriminate|].
  destruct (split sep s); discriminate.
Qed.

Lemma index_last_last {A} (l : list A) (d : A) :
  l <> [] -> index_last l = Returned (last l d).
Proof.
  intros Hne. unfold index_last.
  destruct (exists_last Hne) as [l' [x ->]].
  rewrite rev_app_distr, last_last. reflexivity.
Qed.

Lemma index_last_split alma_id' :
  index_last (split "," alma_id') = Returned (last_segment alma_id').
Proof. apply index_last_last, split_not_nil. Qed.

Lemma substring_0_0 s : substring 0 0 s = EmptyString.
Proof. destruct s; reflexivity. Qed.

Lemma prefix_cons a p x s :
  String.prefix (String a p) (String x s)
  = (Ascii.eqb x a && String.prefix p s)%bool.
Proof.
  simpl. destruct (ascii_dec a x) as [->|Hne].
  - now rewrite Ascii.eqb_refl.
  - destruct (Ascii.eqb_spec x a); [congruence | reflexivity].
Qed.

Lemma prefix_nil s : String.prefix EmptyString s = true.
Proof. destruct s; reflexivity. Qed.

(** Taking the first two characters and comparing with a two-character
    literal is testing the prefix. *)
Lemma slice_0_2_eqb s (a b : ascii) :
  (slice_0_2 s =? String a (String b EmptyString))%string
  = startswith s (String a (String b EmptyString)).
Proof.
  unfold slice_0_2, startswith.
  destruct s as [|x [|y s]].
  - reflexivity.
  - rewrite prefix_cons. simpl. now destruct (Ascii.eqb x a).
  - rewrite !prefix_cons, prefix_nil. simpl. rewrite substring_0_0.
    destruct (Ascii.eqb x a), (Ascii.eqb y b); reflexivity.
Qed.

Lemma startswith_22_not_99 s :
  startswith s "22" = true -> startswith s "99" = false.
Proof.
  unfold startswith. destruct s as [|x s]; [discriminate|].
  rewrite !prefix_cons.
  destruct (Ascii.eqb_spec x "2") as [->|]; [reflexivity | discriminate].
Qed.

Section FlatAlmaRestFacts.

Context {server : Type}.
Variable rest_bibs : @RestBibs server.
Variable job_timestamp : Z.

(** C8 (as amended): in the loop of the flat generation, an identifier whose
    last segment starts with 99 goes to the bibliographic retrieval with the
    whole identifier; one whose last segment starts with 22 and that has at
    least two segments goes to the holdings retrieval with the first segment
    as MMS id and the second as holding id; one whose last segment starts
    with none of 99, 22, 23, 53, 61 gets one error logged, no retrieval and
    no fetched record, and its job-status rows set to error. *)
Theorem dispatch_by_prefix alma_id' (w : World server) :
  (startswith (last_segment alma_id') "99" = true ->
   for_alma_id rest_bibs job_timestamp alma_id' w
   = (record_data <- in_net (get_bib rest_bibs alma_id') ;;
      record_outcome job_timestamp alma_id' record_data) w)
  /\ (startswith (last_segment alma_id') "22" = true ->
      (2 <= length (split "," alma_id'))%nat ->
      holdings_dispatch rest_bibs job_timestamp alma_id' w)
  /\ ((forall p, In p ["99"; "22"; "23"; "53"; "61"] ->
       startswith (last_segment alma_id') p = false) ->
      for_alma_id rest_bibs job_timestamp alma_id' w
      = (Returned tt,
         mkWorld
           (set_job_status_rows (db w)
              (map (stamp "error" alma_id' job_timestamp)
                   (job_status_per_id (db w))))
           (mkNet
              (log (net w)
               ++ [mkLog ERROR
                     [Str "Alma-Id does not have one of the expected prefixes (99, 22, 23 or 53)."]])
              (remote (net w))))).
Proof.
  split; [|split].
  - intros H99. unfold for_alma_id.
    unfold bind at 1, lift at 1. rewrite index_last_split.
    rewrite slice_0_2_eqb, H99. reflexivity.
  - intros H22 Hlen. unfold holdings_dispatch.
    destruct (split "," alma_id') as [|mms_id [|hol_id rest]] eqn:Es;
      simpl in Hlen; try lia.
    exists mms_id, hol_id. split; [reflexivity | split; [reflexivity|]].
    unfold for_alma_id. rewrite Es.
    assert (Hlast : index_last (mms_id :: hol_id :: rest)
                    = Returned (last_segment alma_id')).
    { rewrite <- Es. apply index_last_split. }
    unfold bind at 1, lift at 1. rewrite Hlast.
    rewrite !slice_0_2_eqb, H22.
    rewrite (startswith_22_not_99 _ H22). reflexivity.
  - intros Hout. unfold for_alma_id.
    unfold bind at 1, lift at 1. rewrite index_last_split.
    rewrite !slice_0_2_eqb.
    rewrite !Hout by (simpl; auto 10).
    reflexivity.
Qed.

End FlatAlmaRestFacts.

(** A run on the scripted platform: a holding under the record 9917. *)
Lemma dispatch_by_prefix_witness :
  holdings_dispatch example_rest_bibs 7 "9917,2217452500001234"
    (start [mkResponse 200 xml_body]).
Proof.
  apply (proj1 (proj2 (dispatch_by_prefix example_rest_bibs 7
                         "9917,2217452500001234"
                         (start [mkResponse 200 xml_body])))).
  - reflexivity.
  - simpl. lia.
Defined.

(** C8 (counterexample to the claim as stated): the identifier
    2217452500001234 has one segment, which starts with 22; the loop body
    raises IndexError where it asks for the second segment, and no retrieval
    is called. *)
Lemma dispatch_by_prefix_counterexample :
  startswith (last_segment "2217452500001234") "22" = true
  /\ for_alma_id example_rest_bibs 7 "2217452500001234" (start [])
     = (Raised IndexError, start [])
  /\ ~ holdings_dispatch example_rest_bibs 7 "2217452500001234" (start []).
Proof.
  split; [reflexivity | split; [reflexivity |]].
  intros [mms_id [hol_id [_ [Hsecond _]]]].
  vm_compute in Hsecond. discriminate Hsecond.
Qed.

Section InputHelpersFacts.

Variable files : string -> option (list CsvLine).
Variable is_valid_alma_id : string -> bool.
Context {server : Type}.

Lemma read_rows_without_validation rows (w : World server) :
  read_rows is_valid_alma_id false rows w = (Returned rows, w).
Proof.
  induction rows as [|line rows IH]; [reflexivity|].
  simpl. unfold bind. rewrite IH. reflexivity.
Qed.

(** C10: a CsvHelper built without the validation argument is the one built
    with validation=False: the row reader is called with the flag False,
    keeps every row the file parses to, in file order, and logs nothing. *)
Theorem CsvHelper_default_keeps_every_row csv_path (w : World server) :
  CsvHelper_init files is_valid_alma_id csv_path None w
  = CsvHelper_init files is_valid_alma_id csv_path (Some false) w
  /\ CsvHelper_init files is_valid_alma_id csv_path None w
     = (lines <- input_read_read_csv_contents files is_valid_alma_id
                   csv_path false ;;
        ret (mkCsvHelper lines)) w
  /\ CsvHelper_init files is_valid_alma_id csv_path None w
     = (Returned (mkCsvHelper (match files csv_path with
                               | Some rows => rows
                               | None => []
                               end)),
        w).
Proof.
  split; [reflexivity | split; [reflexivity |]].
  unfold CsvHelper_init, input_read_read_csv_contents, read_csv_contents,
    bind.
  destruct (files csv_path) as [rows|].
  - rewrite read_rows_without_validation. reflexivity.
  - reflexivity.
Qed.

End InputHelpersFacts.

(* ===================================================================== *)
(** ** More on the REST client                                            *)
(* ===================================================================== *)

Section RestCallApiMore.

Context {server : Type}.
Variable send : server -> Request -> Response * server.
Variables (api_key api_base_url : string).

Ltac client_steps :=
  unfold call_api, switch_api_method, session_request, bind, lift,
    decode_utf8, str_iadd_set, logger_info, logger_warning, logger_error,
    emit, raise, ret, with_remote.

(** X1: whatever the status and the expected status, a response whose body
    is not valid UTF-8 makes the call raise UnicodeDecodeError, and nothing
    is added to the log. *)
Theorem call_api_body_not_utf8 url_parameters method expected record_data
    (n n1 : Net server) (r : Response) :
  switch_api_method send (api_base_url ++ url_parameters) method
    (create_alma_api_session api_key "xml") record_data n
  = (Returned r, n1) ->
  utf8_valid (content r) = false ->
  call_api send api_key api_base_url url_parameters method expected
    record_data n
  = (Raised UnicodeDecodeError, mkNet (log n) (remote n1)).
Proof.
  intros Hsw Hbad.
  pose proof (switch_api_method_returned _ _ _ _ _ _ _ _ Hsw) as Hlog.
  unfold call_api, bind. rewrite Hsw.
  unfold lift, decode_utf8. rewrite Hbad.
  destruct n1 as [l1 s1]; simpl in *; subst l1.
  destruct (status_code r =? expected); reflexivity.
Qed.

(** X2: on the expected status, a body that is valid UTF-8, has no
    [<errorList>] and opens with [<?xml] (or any such body when 204 is
    expected) is returned as it came, and the log gains the one line that
    the call completed. *)
Theorem call_api_clean_success url_parameters method expected record_data
    (n n1 : Net server) (r : Response) :
  switch_api_method send (api_base_url ++ url_parameters) method
    (create_alma_api_session api_key "xml") record_data n
  = (Returned r, n1) ->
  status_code r = expected ->
  utf8_valid (content r) = true ->
  contains "<errorList>" (content r) = false ->
  startswith (content r) "<?xml" = true \/ expected = 204 ->
  call_api send api_key api_base_url url_parameters method expected
    record_data n
  = (Returned (Some (content r)),
     mkNet (log n
            ++ [mkLog INFO
                  [Str (method ++ " for record " ++ dquote ++ url_parameters
                        ++ dquote ++ " completed.")]])
           (remote n1)).
Proof.
  intros Hsw Hst Hutf Herr Hxml.
  pose proof (switch_api_method_returned _ _ _ _ _ _ _ _ Hsw) as Hlog.
  unfold call_api, bind. rewrite Hsw.
  apply Z.eqb_eq in Hst. rewrite Hst.
  unfold lift, decode_utf8. rewrite Hutf.
  unfold logger_info, emit; simpl. rewrite Herr, Hlog.
  destruct Hxml as [Hxml | H204].
  - rewrite Hxml. reflexivity.
  - apply Z.eqb_eq in H204. rewrite H204, andb_false_r. reflexivity.
Qed.

(** X3: on the expected status, a body with [<errorList>] in it is still
    returned as it came, whether it opens with [<?xml] or not; the log gains
    the line that the call completed and one warning, and no error. *)
Theorem call_api_embedded_error_list url_parameters method expected
    record_data (n n1 : Net server) (r : Response) :
  switch_api_method send (api_base_url ++ url_parameters) method
    (create_alma_api_session api_key "xml") record_data n
  = (Returned r, n1) ->
  status_code r = expected ->
  utf8_valid (content r) = true ->
  contains "<errorList>" (content r) = true ->
  exists completed warning,
    call_api send api_key api_base_url url_parameters method expected
      record_data n
    = (Returned (Some (content r)),
       mkNet (log n ++ [mkLog INFO completed; mkLog WARNING warning])
             (remote n1)).
Proof.
  intros Hsw Hst Hutf Herr.
  pose proof (switch_api_method_returned _ _ _ _ _ _ _ _ Hsw) as Hlog.
  unfold call_api, bind. rewrite Hsw.
  apply Z.eqb_eq in Hst. rewrite Hst.
  unfold lift, decode_utf8. rewrite Hutf.
  unfold logger_info, logger_warning, emit; simpl. rewrite Herr, Hlog.
  simpl. rewrite <- app_assoc. simpl.
  eexists. eexists. reflexivity.
Qed.

(** X4: a value the call returns is the body of the response, unchanged, and
    the response had the expected status; the call returns nothing only for
    a response of another status. *)
Theorem call_api_returns_the_body url_parameters method expected record_data
    (n n1 n2 : Net server) (r : Response) (v : option string) :
  switch_api_method send (api_base_url ++ url_parameters) method
    (create_alma_api_session api_key "xml") record_data n
  = (Returned r, n1) ->
  call_api send api_key api_base_url url_parameters method expected
    record_data n
  = (Returned v, n2) ->
  remote n2 = remote n1
  /\ ((v = Some (content r) /\ status_code r = expected)
      \/ (v = None /\ status_code r <> expected)).
Proof.
  intros Hsw. unfold call_api, bind. rewrite Hsw.
  destruct (status_code r =? expected) eqn:Est.
  - apply Z.eqb_eq in Est.
    unfold lift, decode_utf8.
    destruct (utf8_valid (content r)); [|discriminate].
    unfold logger_info, logger_warning, logger_error, emit, str_iadd_set,
      ret; simpl.
    destruct (contains "<errorList>" (content r)); simpl.
    + intros E; inversion E; subst; simpl. auto.
    + destruct (negb (startswith (content r) "<?xml")
                && negb (expected =? 204))%bool; simpl.
      * discriminate.
      * intros E; inversion E; subst; simpl. auto.
  - apply Z.eqb_neq in Est.
    unfold lift, decode_utf8.
    destruct (utf8_valid (content r)); [|discriminate].
    unfold logger_error, emit, ret; simpl.
    intros E; inversion E; subst; simpl. auto.
Qed.

(** X5: with a method that is none of DELETE, GET, POST, PUT the call raises
    ValueError, logs one error and sends nothing to the platform. *)
Theorem call_api_unknown_method url_parameters method expected record_data
    (n : Net server) :
  ~ In method ["DELETE"; "GET"; "POST"; "PUT"] ->
  call_api send api_key api_base_url url_parameters method expected
    record_data n
  = (Raised ValueError,
     mkNet (log n ++ [mkLog ERROR [Str "No valid REST method supplied."]])
           (remote n)).
Proof.
  intros Hout.
  assert (Hd : (method =? "DELETE")%string = false)
    by (apply String.eqb_neq; intros ->; apply Hout; simpl; auto).
  assert (Hg : (method =? "GET")%string = false)
    by (apply String.eqb_neq; intros ->; apply Hout; simpl; auto).
  assert (Hp : (method =? "POST")%string = false)
    by (apply String.eqb_neq; intros ->; apply Hout; simpl; auto).
  assert (Hu : (method =? "PUT")%string = false)
    by (apply String.eqb_neq; intros ->; apply Hout; simpl; auto).
  unfold call_api, switch_api_method. rewrite Hd, Hg, Hp, Hu.
  reflexivity.
Qed.

Lemma call_api_remote_known method url_parameters expected record_data
    (data : option string) (n : Net server) :
  switch_api_method send (api_base_url ++ url_parameters) method
    (create_alma_api_session api_key "xml") record_data
  = session_request send (create_alma_api_session api_key "xml") method
      (api_base_url ++ url_parameters) data ->
  remote (snd (call_api send api_key api_base_url url_parameters method
                 expected record_data n))
  = snd (send (remote n)
           (mkRequest method (api_base_url ++ url_parameters)
              (create_alma_api_session api_key "xml") data)).
Proof.
  intros Hsw. unfold call_api, bind. rewrite Hsw.
  unfold session_request.
  destruct (send (remote n) _) as [r s'] eqn:Es. simpl.
  unfold lift, decode_utf8, str_iadd_set, logger_info, logger_warning,
    logger_error, emit, raise, ret.
  repeat match goal with
         | |- context [if ?b then _ else _] => destruct b; simpl
         end;
    reflexivity.
Qed.

Lemma logged_call_remote msg url_parameters method expected record_data
    (n : Net server) :
  remote (snd ((logger_info msg ;;;
                ret tt ;;;
                response_content <-
                  call_api send api_key api_base_url url_parameters method
                    expected record_data ;;
                ret response_content) n))
  = remote (snd (call_api send api_key api_base_url url_parameters method
                   expected record_data n)).
Proof.
  unfold bind at 1 2. unfold logger_info, emit, ret at 1. simpl.
  destruct (same_traffic_call_api send api_key api_base_url url_parameters
              method expected record_data
              (mkNet (log n ++ [mkLog INFO msg]) (remote n)) n eq_refl)
    as [_ <-].
  unfold bind.
  destruct (call_api send api_key api_base_url url_parameters method
              expected record_data _) as [[v|e] n2]; reflexivity.
Qed.

Lemma operations_calls (self : GenericApi) record_id record_data
    url_parameters (n : Net server) :
  remote (snd (create send api_key api_base_url self record_data
                 url_parameters n))
  = snd (send (remote n)
           (mkRequest "POST" (api_base_url ++ base_path self)
              (create_alma_api_session api_key "xml") record_data))
  /\ remote (snd (retrieve send api_key api_base_url self record_id
                    url_parameters n))
     = snd (send (remote n)
              (mkRequest "GET" (api_base_url ++ base_path self ++ record_id)
                 (create_alma_api_session api_key "xml") None))
  /\ remote (snd (update send api_key api_base_url self record_id
                    record_data url_parameters n))
     = snd (send (remote n)
              (mkRequest "PUT" (api_base_url ++ base_path self ++ record_id)
                 (create_alma_api_session api_key "xml") record_data))
  /\ remote (snd (delete send api_key api_base_url self record_id
                    url_parameters n))
     = snd (send (remote n)
              (mkRequest "DELETE"
                 (api_base_url ++ base_path self ++ record_id)
                 (create_alma_api_session api_key "xml") None)).
Proof.
  destruct (url_parameters_never_sent send api_key api_base_url self
              record_id record_data url_parameters)
    as [Hc [Hr [Hu Hd]]].
  destruct (Hc n n eq_refl) as [_ ->]. destruct (Hr n n eq_refl) as [_ ->].
  destruct (Hu n n eq_refl) as [_ ->]. destruct (Hd n n eq_refl) as [_ ->].
  unfold create, retrieve, update, delete; simpl truthy_dict.
  cbv iota. rewrite !logged_call_remote.
  split; [|split; [|split]]; apply call_api_remote_known; reflexivity.
Qed.

Lemma hands_over_session method url data :
  hands_over (mkRequest method url (create_alma_api_session api_key "xml")
                data)
    method url data api_key.
Proof.
  unfold hands_over; simpl.
  split; [reflexivity | split; [reflexivity | split; [reflexivity |]]].
  apply incl_refl.
Qed.

(** X6: what each operation of the client hands to the session, whatever
    the URL parameters and whatever comes back.  Each operation makes one
    call of the session: create a POST with the record data, for the URL
    string made of the base URL and the base path; retrieve, update and
    delete a GET, a PUT with the record data and a DELETE, for the URL
    string made of the base URL, the base path and the record id; GET and
    DELETE are given no data; the headers of the call have among them
    accept and Content-Type application/xml, authorization with the key
    after [apikey ], and the User-Agent of the code. *)
Theorem operations_hand_to_the_session (self : GenericApi) record_id
    record_data url_parameters (n : Net server) :
  (exists req,
     remote (snd (create send api_key api_base_url self record_data
                    url_parameters n))
     = snd (send (remote n) req)
     /\ hands_over req "POST" (api_base_url ++ base_path self) record_data
          api_key)
  /\ (exists req,
        remote (snd (retrieve send api_key api_base_url self record_id
                       url_parameters n))
        = snd (send (remote n) req)
        /\ hands_over req "GET"
             (api_base_url ++ base_path self ++ record_id) None api_key)
  /\ (exists req,
        remote (snd (update send api_key api_base_url self record_id
                       record_data url_parameters n))
        = snd (send (remote n) req)
        /\ hands_over req "PUT"
             (api_base_url ++ base_path self ++ record_id) record_data
             api_key)
  /\ (exists req,
        remote (snd (delete send api_key api_base_url self record_id
                       url_parameters n))
        = snd (send (remote n) req)
        /\ hands_over req "DELETE"
             (api_base_url ++ base_path self ++ record_id) None api_key).
Proof.
  destruct (operations_calls self record_id record_data url_parameters n)
    as [Hc [Hr [Hu Hd]]].
  split; [|split; [|split]]; eexists;
    (split; [eassumption | apply hands_over_session]).
Qed.

End RestCallApiMore.

(* ===================================================================== *)
(** ** More on the orchestration (alma_rest package)                      *)
(* ===================================================================== *)

Lemma nth_error_0_split sep s :
  nth_error (split sep s) 0 = Some (hd EmptyString (split sep s)).
Proof.
  pose proof (split_not_nil sep s) as Hne.
  destruct (split sep s); [contradiction | reflexivity].
Qed.

Lemma eqb_false_of_out (x : string) (l : list string) (y : string) :
  ~ In x l -> In y l -> (x =? y)%string = false.
Proof.
  intros Hout Hin. apply String.eqb_neq. intros ->. contradiction.
Qed.

Section AlmaRestMore.

Context {server : Type}.
Variable rest : @RestModules server.
Variable job_timestamp : Z.

(** X8: for an API name that is none of bibs, electronic, users the class
    lookup logs one error and raises NotImplementedError; for one of the
    three with a record type it does not know it raises NotImplementedError
    and logs nothing.  No constructor is called and the state is otherwise
    as it was. *)
Theorem instantiate_api_class_unknown alma_id' api record_type
    (w : World server) :
  (~ In api ["bibs"; "electronic"; "users"] ->
   instantiate_api_class rest alma_id' api record_type w
   = (Raised NotImplementedError,
      mkWorld (db w)
        (mkNet (log (net w)
                ++ [mkLog ERROR
                      [Str "The API you are trying to call is not implemented yet or does not exist."]])
               (remote (net w)))))
  /\ (~ In record_type ["bibs"; "holdings"; "items"; "portfolios"] ->
      instantiate_api_class rest alma_id' "bibs" record_type w
      = (Raised NotImplementedError, w))
  /\ (~ In record_type ["e-collections"; "e-services"; "portfolios"] ->
      instantiate_api_class rest alma_id' "electronic" record_type w
      = (Raised NotImplementedError, w))
  /\ (record_type <> "users" ->
      instantiate_api_class rest alma_id' "users" record_type w
      = (Raised NotImplementedError, w)).
Proof.
  split; [|split; [|split]]; intros Hout; unfold instantiate_api_class.
  - rewrite !(eqb_false_of_out _ _ _ Hout) by (simpl; auto).
    reflexivity.
  - simpl. rewrite !(eqb_false_of_out _ _ _ Hout) by (simpl; auto).
    reflexivity.
  - simpl. rewrite !(eqb_false_of_out _ _ _ Hout) by (simpl; auto).
    reflexivity.
  - simpl. apply String.eqb_neq in Hout. rewrite Hout. reflexivity.
Qed.

(** X9: the classes with one ancestor (holdings and portfolios of bibs,
    e-services) are always built, from the first comma-separated segment of
    the identifier; the classes with two ancestors (items, portfolios of
    electronic) are built from the first two segments, and for an identifier
    of one segment the lookup raises IndexError before any constructor is
    called. *)
Theorem instantiate_api_class_ancestors alma_id' (w : World server) :
  let first := hd EmptyString (split "," alma_id') in
  instantiate_api_class rest alma_id' "bibs" "holdings" w
  = in_net (rest_bibs_HoldingsApi rest first) w
  /\ instantiate_api_class rest alma_id' "bibs" "portfolios" w
     = in_net (rest_bibs_PortfoliosApi rest first) w
  /\ instantiate_api_class rest alma_id' "electronic" "e-services" w
     = in_net (rest_electronic_EservicesApi rest first) w
  /\ (forall second,
        nth_error (split "," alma_id') 1 = Some second ->
        instantiate_api_class rest alma_id' "bibs" "items" w
        = in_net (rest_bibs_ItemsApi rest first second) w
        /\ instantiate_api_class rest alma_id' "electronic" "portfolios" w
           = in_net (rest_electronic_PortfoliosApi rest first second) w)
  /\ (length (split "," alma_id') = 1%nat ->
      instantiate_api_class rest alma_id' "bibs" "items" w
      = (Raised IndexError, w)
      /\ instantiate_api_class rest alma_id' "electronic" "portfolios" w
         = (Raised IndexError, w)).
Proof.
  intros first. subst first. unfold instantiate_api_class.
  pose proof (split_not_nil "," alma_id') as Hne.
  destruct (split "," alma_id') as [|a [|b l]]; [contradiction | |].
  - split; [reflexivity | split; [reflexivity | split; [reflexivity |]]].
    split.
    + intros second Hsecond. discriminate Hsecond.
    + intros _. split; reflexivity.
  - split; [reflexivity | split; [reflexivity | split; [reflexivity |]]].
    split.
    + intros second Hsecond. simpl in Hsecond.
      injection Hsecond as <-. split; reflexivity.
    + intros Hlen. discriminate Hlen.
Qed.

(** X10: when the class lookup raises, call_api_for_record raises the same
    exception and the database is as it was: no job-status row is
    registered for the record. *)
Theorem call_api_for_record_without_class alma_id' api record_type method
    manipulate_record (w w0 : World server) (e : exn) :
  In method ["DELETE"; "GET"; "PUT"] ->
  instantiate_api_class rest alma_id' api record_type w = (Raised e, w0) ->
  call_api_for_record rest job_timestamp alma_id' api record_type method
    manipulate_record w
  = (Raised e, w0)
  /\ db w0 = db w.
Proof.
  intros Hm Hinst.
  split; [|exact (keeps_db_instantiate_api_class rest _ _ _ _ _ _ Hinst)].
  assert (Hm' : method = "DELETE" \/ method = "GET" \/ method = "PUT")
    by (simpl in Hm; intuition auto).
  unfold call_api_for_record.
  destruct Hm' as [-> | [-> | ->]].
  all: unfold bind at 1; simpl.
  all: unfold bind at 1; simpl.
  all: unfold bind at 1; rewrite Hinst; reflexivity.
Qed.

(** X11: with the method PUT and no transform given (the default), once the
    record is fetched the call raises TypeError: the GET row is done and
    committed, the PUT row is registered and stays new, nothing is sent to
    the platform for the update, and the closing commit is not reached. *)
Theorem put_without_transform_function alma_id' api record_type record_id
    api_obj (w w0 : World server) data n1 :
  instantiate_api_class rest alma_id' api record_type w
  = (Returned api_obj, w0) ->
  index_last (split "," alma_id') = Returned record_id ->
  api_retrieve api_obj record_id (net w0) = (Returned (Some data), n1) ->
  data <> EmptyString ->
  call_api_for_record rest job_timestamp alma_id' api record_type "PUT"
    None w
  = (Raised TypeError,
     mkWorld
       (mkDb
          (map (mark "done" alma_id' "GET" job_timestamp)
               (job_status_per_id (db w))
           ++ [mkJobStatus alma_id' "done" job_timestamp "GET";
               mkJobStatus alma_id' "new" job_timestamp "PUT"])
          (source_csv (db w))
          (fetched_records (db w) ++ [mkBody alma_id' job_timestamp data])
          (sent_records (db w))
          (put_post_responses (db w))
          (S (commits (db w))))
       n1).
Proof.
  intros Hinst Hidx Hget Hdata.
  pose proof (keeps_db_instantiate_api_class rest _ _ _ _ _ _ Hinst) as Hdb.
  destruct data as [|c data]; [contradiction|].
  unfold call_api_for_record.
  unfold bind at 1; simpl.
  unfold bind at 1; simpl.
  unfold bind at 1; rewrite Hinst.
  unfold bind at 1; simpl.
  unfold bind at 1; unfold lift at 1; rewrite Hidx.
  unfold bind at 1; unfold in_net at 1; simpl; rewrite Hget.
  unfold bind, add_response_content_to_fetched_records, update_job_status,
    commit, add_alma_id_to_job_status_per_id, on_db, raise, ret, with_db,
    set_job_status_rows; simpl.
  rewrite Hdb, map_app; simpl map. rewrite mark_own.
  rewrite <- app_assoc. reflexivity.
Qed.

End AlmaRestMore.

(** *** The tables only grow *)

Lemma extends_refl d : extends d d.
Proof.
  unfold extends.
  repeat split; try (exists []; now rewrite app_nil_r); lia.
Qed.

Lemma extends_trans d1 d2 d3 : extends d1 d2 -> extends d2 d3 -> extends d1 d3.
Proof.
  unfold extends.
  intros [[a1 H1] [[b1 H2] [[c1 H3] [[e1 H4] [[f1 H5] H6]]]]]
         [[a2 G1] [[b2 G2] [[c2 G3] [[e2 G4] [[f2 G5] G6]]]]].
  repeat split.
  - exists (a1 ++ a2)%list. now rewrite G1, H1, app_assoc.
  - exists (b1 ++ b2)%list. now rewrite G2, H2, app_assoc.
  - exists (c1 ++ c2)%list. now rewrite G3, H3, app_assoc.
  - exists (e1 ++ e2)%list. now rewrite G4, H4, app_assoc.
  - exists (f1 ++ f2)%list. now rewrite G5, H5, app_assoc.
  - lia.
Qed.

Lemma key_of_mark st id action ts r : key_of (mark st id action ts r) = key_of r.
Proof. unfold mark. destruct (is_key id action ts r); reflexivity. Qed.

Lemma map_key_of_mark st id action ts rows :
  map key_of (map (mark st id action ts) rows) = map key_of rows.
Proof.
  rewrite map_map. apply map_ext. intros r. apply key_of_mark.
Qed.

Section Growth.

Context {server : Type}.
Variable rest : @RestModules server.
Variable job_timestamp : Z.

Lemma append_only_of_keeps_db {A} (m : M (World server) A) :
  keeps_db m -> append_only m.
Proof.
  intros Hm w r w' E. rewrite (Hm _ _ _ E). apply extends_refl.
Qed.

Lemma append_only_ret {A} (a : A) : @append_only server A (ret a).
Proof. intros w r w' E. inversion E; subst. apply extends_refl. Qed.

Lemma append_only_raise {A} (e : exn) : @append_only server A (raise e).
Proof. intros w r w' E. inversion E; subst. apply extends_refl. Qed.

Lemma append_only_lift {A} (o : outcome A) : @append_only server A (lift o).
Proof. intros w r w' E. inversion E; subst. apply extends_refl. Qed.

Lemma append_only_emit lv m : @append_only server unit (emit lv m).
Proof. intros w r w' E. inversion E; subst. apply extends_refl. Qed.

Lemma append_only_in_net {A} (m : M (Net server) A) : append_only (in_net m).
Proof. apply append_only_of_keeps_db, keeps_db_in_net. Qed.

Lemma append_only_bind {A B} (m : M (World server) A)
    (k : A -> M (World server) B) :
  append_only m -> (forall a, append_only (k a)) -> append_only (bind m k).
Proof.
  intros Hm Hk w r w'. unfold bind.
  destruct (m w) as [[a|e] w1] eqn:E.
  - intros E'. eapply extends_trans; [exact (Hm _ _ _ E) | exact (Hk _ _ _ _ E')].
  - intros E'. inversion E'; subst. exact (Hm _ _ _ E).
Qed.

Lemma append_only_on_db (f : Db -> Db) :
  (forall d, extends d (f d)) -> @append_only server unit (on_db f).
Proof. intros Hf w r w' E. inversion E; subst. simpl. apply Hf. Qed.

Lemma append_only_add_alma_id id action ts :
  @append_only server unit (add_alma_id_to_job_status_per_id id action ts).
Proof.
  apply append_only_on_db. intros d. unfold extends; simpl.
  repeat split; try (exists []; now rewrite app_nil_r); try lia.
  eexists. rewrite map_app. reflexivity.
Qed.

Lemma append_only_update_job_status st id action ts :
  @append_only server unit (update_job_status st id action ts).
Proof.
  apply append_only_on_db. intros d. unfold extends; simpl.
  repeat split; try (exists []; now rewrite app_nil_r); try lia.
  exists []. now rewrite map_key_of_mark, app_nil_r.
Qed.

Lemma append_only_add_fetched id data ts :
  @append_only server unit
    (add_response_content_to_fetched_records id data ts).
Proof.
  apply append_only_on_db. intros d. unfold extends; simpl.
  repeat split; try (exists []; now rewrite app_nil_r); try lia.
  eexists; reflexivity.
Qed.

Lemma append_only_add_sent id data ts :
  @append_only server unit (add_sent_record id data ts).
Proof.
  apply append_only_on_db. intros d. unfold extends; simpl.
  repeat split; try (exists []; now rewrite app_nil_r); try lia.
  eexists; reflexivity.
Qed.

Lemma append_only_add_response id data ts :
  @append_only server unit (add_put_post_response id data ts).
Proof.
  apply append_only_on_db. intros d. unfold extends; simpl.
  repeat split; try (exists []; now rewrite app_nil_r); try lia.
  eexists; reflexivity.
Qed.

Lemma append_only_commit : @append_only server unit commit.
Proof.
  apply append_only_on_db. intros d. unfold extends; simpl.
  repeat split; try (exists []; now rewrite app_nil_r); lia.
Qed.

Lemma keeps_db_check_data id ts :
  @keeps_db server unit (check_data_sent_equals_response id ts).
Proof.
  intros w r w'. unfold check_data_sent_equals_response.
  destruct (strings_eqb _ _); intros E; inversion E; subst; reflexivity.
Qed.

Lemma keeps_db_log_success_rate action ts :
  @keeps_db server unit (log_success_rate action ts).
Proof. intros w r w' E. inversion E; subst. reflexivity. Qed.

Lemma append_only_for_each {A} (xs : list A) (body : A -> M (World server) unit) :
  (forall x, append_only (body x)) -> append_only (for_each xs body).
Proof.
  intros Hb. induction xs as [|x xs IH]; simpl.
  - apply append_only_ret.
  - apply append_only_bind; [apply Hb | intros _; exact IH].
Qed.

Create HintDb grow.
#[local] Hint Resolve append_only_ret append_only_raise append_only_lift
  append_only_emit append_only_in_net append_only_add_alma_id
  append_only_update_job_status append_only_add_fetched append_only_add_sent
  append_only_add_response append_only_commit : grow.
#[local] Hint Extern 1 (append_only (check_data_sent_equals_response _ _)) =>
  apply append_only_of_keeps_db, keeps_db_check_data : grow.
#[local] Hint Extern 1 (append_only (log_success_rate _ _)) =>
  apply append_only_of_keeps_db, keeps_db_log_success_rate : grow.
#[local] Hint Extern 1 (append_only (instantiate_api_class _ _ _ _)) =>
  apply append_only_of_keeps_db, keeps_db_instantiate_api_class : grow.

Ltac grow :=
  repeat first
    [ solve [auto with grow]
    | apply append_only_bind; [|intros]
    | match goal with
      | |- append_only (match ?x with _ => _ end) => destruct x
      end ].

Lemma append_only_call_api_for_record alma_id' api record_type method
    manipulate_record :
  append_only (call_api_for_record rest job_timestamp alma_id' api
                 record_type method manipulate_record).
Proof.
  unfold call_api_for_record, logger_error, logger_info. grow.
Qed.

Lemma append_only_call_api_for_list alma_ids api record_type method
    manipulate_record :
  append_only (call_api_for_list rest job_timestamp alma_ids api record_type
                 method manipulate_record).
Proof.
  unfold call_api_for_list, create_db_session, close.
  apply append_only_bind; [auto with grow | intros _].
  apply append_only_bind; [|intros; grow].
  destruct alma_ids as [ids|]; [|auto with grow].
  apply append_only_for_each. intros x.
  apply append_only_call_api_for_record.
Qed.

(** X12: the three entry points only ever grow the database, whatever the
    API objects do and whether the call returns or raises: in each of the
    five tables the rows that were there are still there, in place, followed
    by the new ones; a job-status row changes in its status only; the count
    of commits does not go down. *)
Theorem orchestration_is_append_only alma_id' alma_ids set_id api
    record_type method manipulate_record :
  append_only (call_api_for_record rest job_timestamp alma_id' api
                 record_type method manipulate_record)
  /\ append_only (call_api_for_list rest job_timestamp alma_ids api
                    record_type method manipulate_record)
  /\ append_only (call_api_for_set rest job_timestamp set_id api record_type
                    method manipulate_record).
Proof.
  split; [apply append_only_call_api_for_record |].
  split; [apply append_only_call_api_for_list |].
  unfold call_api_for_set, type_is_None.
  apply append_only_bind; [apply append_only_ret | intros _].
  apply append_only_bind; [auto with grow | intros _].
  apply append_only_bind; [auto with grow | intros members].
  apply append_only_bind; [apply append_only_ret | intros _].
  apply append_only_bind; [apply append_only_call_api_for_list | intros _].
  apply append_only_bind; [auto with grow | intros _].
  apply append_only_bind; [auto with grow | intros _].
  apply append_only_ret.
Qed.

End Growth.

(** *** Only an update writes what was sent and what came back *)

Section SentFrame.

Context {server : Type}.
Variable rest : @RestModules server.
Variable job_timestamp : Z.

Lemma keeps_sent_of_keeps_db {A} (m : M (World server) A) :
  keeps_db m -> keeps_sent m.
Proof. intros Hm w r w' E. rewrite (Hm _ _ _ E). split; reflexivity. Qed.

Lemma keeps_sent_ret {A} (a : A) : @keeps_sent server A (ret a).
Proof. intros w r w' E. inversion E; subst. split; reflexivity. Qed.

Lemma keeps_sent_raise {A} (e : exn) : @keeps_sent server A (raise e).
Proof. intros w r w' E. inversion E; subst. split; reflexivity. Qed.

Lemma keeps_sent_bind {A B} (m : M (World server) A)
    (k : A -> M (World server) B) :
  keeps_sent m -> (forall a, keeps_sent (k a)) -> keeps_sent (bind m k).
Proof.
  intros Hm Hk w r w'. unfold bind.
  destruct (m w) as [[a|e] w1] eqn:E.
  - intros E'. destruct (Hm _ _ _ E) as [H1 H2].
    destruct (Hk _ _ _ _ E') as [G1 G2]. split; congruence.
  - intros E'. inversion E'; subst. exact (Hm _ _ _ E).
Qed.

Lemma keeps_sent_on_db (f : Db -> Db) :
  (forall d, sent_records (f d) = sent_records d
             /\ put_post_responses (f d) = put_post_responses d) ->
  @keeps_sent server unit (on_db f).
Proof. intros Hf w r w' E. inversion E; subst. simpl. apply Hf. Qed.

Lemma keeps_sent_for_each {A} (xs : list A) (body : A -> M (World server) unit) :
  (forall x, keeps_sent (body x)) -> keeps_sent (for_each xs body).
Proof.
  intros Hb. induction xs as [|x xs IH]; simpl.
  - apply keeps_sent_ret.
  - apply keeps_sent_bind; [apply Hb | intros _; exact IH].
Qed.

Ltac frame :=
  repeat first
    [ apply keeps_sent_ret
    | apply keeps_sent_raise
    | apply keeps_sent_of_keeps_db;
      first [ apply keeps_db_in_net | apply keeps_db_lift
            | apply keeps_db_emit | apply keeps_db_instantiate_api_class
            | apply keeps_db_log_success_rate ]
    | apply keeps_sent_on_db; intros; split; reflexivity
    | apply keeps_sent_bind; [|intros]
    | match goal with
      | |- keeps_sent (match ?x with _ => _ end) => destruct x
      end ].

Lemma keeps_sent_call_api_for_record alma_id' api record_type method
    manipulate_record :
  method <> "PUT" ->
  keeps_sent (call_api_for_record rest job_timestamp alma_id' api
                record_type method manipulate_record).
Proof.
  intros Hne. apply String.eqb_neq in Hne.
  unfold call_api_for_record. rewrite Hne.
  unfold logger_error, logger_info, add_alma_id_to_job_status_per_id,
    update_job_status, add_response_content_to_fetched_records, commit.
  frame.
Qed.

Lemma keeps_sent_call_api_for_list alma_ids api record_type method
    manipulate_record :
  method <> "PUT" ->
  keeps_sent (call_api_for_list rest job_timestamp alma_ids api record_type
                method manipulate_record).
Proof.
  intros Hne. unfold call_api_for_list.
  apply keeps_sent_bind; [apply keeps_sent_ret | intros _].
  apply keeps_sent_bind; [|intros _].
  - destruct alma_ids as [ids|]; [|apply keeps_sent_raise].
    apply keeps_sent_for_each. intros x.
    now apply keeps_sent_call_api_for_record.
  - apply keeps_sent_bind; [|intros _; apply keeps_sent_ret].
    apply keeps_sent_of_keeps_db, keeps_db_log_success_rate.
Qed.

(** X13: with a method other than PUT none of the three entry points writes
    to sent_records or put_post_responses, whatever the API objects do and
    whether the call returns or raises. *)
Theorem only_put_writes_sent_and_responses alma_id' alma_ids set_id api
    record_type method manipulate_record :
  method <> "PUT" ->
  keeps_sent (call_api_for_record rest job_timestamp alma_id' api
                record_type method manipulate_record)
  /\ keeps_sent (call_api_for_list rest job_timestamp alma_ids api
                   record_type method manipulate_record)
  /\ keeps_sent (call_api_for_set rest job_timestamp set_id api record_type
                   method manipulate_record).
Proof.
  intros Hne.
  split; [now apply keeps_sent_call_api_for_record |].
  split; [now apply keeps_sent_call_api_for_list |].
  unfold call_api_for_set, type_is_None.
  apply keeps_sent_bind; [apply keeps_sent_ret | intros _].
  apply keeps_sent_bind;
    [apply keeps_sent_on_db; intros; split; reflexivity | intros _].
  apply keeps_sent_bind;
    [apply keeps_sent_of_keeps_db, keeps_db_in_net | intros members].
  apply keeps_sent_bind; [apply keeps_sent_ret | intros _].
  apply keeps_sent_bind;
    [now apply keeps_sent_call_api_for_list | intros _].
  apply keeps_sent_bind;
    [apply keeps_sent_on_db; intros; split; reflexivity | intros _].
  apply keeps_sent_bind;
    [apply keeps_sent_on_db; intros; split; reflexivity | intros _].
  apply keeps_sent_ret.
Qed.

(** X14: the method is looked at record by record only.  call_api_for_list
    with no identifier returns for any method string, valid or not, and
    only logs the success rate; with an identifier and a method that is none
    of DELETE, GET, PUT, POST it raises ValueError at the first record,
    writes nothing and does not log the success rate; with no sequence at
    all it raises TypeError. *)
Theorem call_api_for_list_checks_method_per_record alma_id' ids api
    record_type method manipulate_record (w : World server) :
  (exists line,
     call_api_for_list rest job_timestamp (Some []) api record_type method
       manipulate_record w
     = (Returned tt,
        mkWorld (db w)
          (mkNet (log (net w) ++ [mkLog INFO line]) (remote (net w)))))
  /\ (~ In method ["DELETE"; "GET"; "PUT"; "POST"] ->
      call_api_for_list rest job_timestamp (Some (alma_id' :: ids)) api
        record_type method manipulate_record w
      = (Raised ValueError,
         mkWorld (db w)
           (mkNet (log (net w)
                   ++ [mkLog ERROR
                         [Str ("Provided method " ++ method
                               ++ " does not match any of the expected values.")]])
                  (remote (net w)))))
  /\ call_api_for_list rest job_timestamp None api record_type method
       manipulate_record w
     = (Raised TypeError, w).
Proof.
  split; [|split].
  - eexists. reflexivity.
  - intros Hout. unfold call_api_for_list.
    unfold bind at 1; simpl.
    unfold bind at 1. unfold bind at 1.
    unfold call_api_for_record.
    rewrite (is_known_method_false _ Hout). reflexivity.
  - reflexivity.
Qed.

End SentFrame.

(** *** The orchestration over the generic client *)

Section EndToEnd.

Context {server : Type}.
Variable send : server -> Request -> Response * server.
Variables (api_key api_base_url path : string).
Variable rest : @RestModules server.
Variable job_timestamp : Z.

(** The class of bibliographic records is the generic client on a path. *)
Hypothesis bibs_is_generic :
  rest_bibs_BibsApi rest
  = ret (generic_object send api_key api_base_url path).

Ltac to_the_wire Hsend :=
  unfold call_api_for_record;
  unfold bind at 1; simpl;
  unfold bind at 1; simpl;
  unfold bind at 1; unfold instantiate_api_class; simpl;
  rewrite bibs_is_generic; unfold in_net at 1, ret at 1;
  unfold bind at 1; simpl;
  unfold bind at 1; unfold lift at 1; rewrite index_last_split;
  unfold bind at 1; unfold in_net at 1; simpl;
  unfold retrieve, call_api, switch_api_method, session_request, bind,
    logger_info, logger_error, emit, ret; simpl;
  change (xml_headers api_key)
    with (create_alma_api_session api_key "xml") in Hsend;
  rewrite Hsend; unfold with_remote; simpl.

(** X15: a record of the bibliographic API whose GET is answered with
    another status than 200 and a body that is text: the call returns, the
    GET row of the record ends at error, nothing is fetched or written
    elsewhere, one commit is made, and the log gains the line of intent, the
    report of the client and the error of the orchestration, in that
    order. *)
Theorem get_answered_with_failure alma_id' manipulate_record
    (w : World server) (r : Response) (s' : server) :
  send (remote (net w))
    (mkRequest "GET" (api_base_url ++ path ++ last_segment alma_id')
       (xml_headers api_key) None)
  = (r, s') ->
  status_code r <> 200 ->
  utf8_valid (content r) = true ->
  call_api_for_record rest job_timestamp alma_id' "bibs" "bibs" "GET"
    manipulate_record w
  = (Returned tt,
     mkWorld
       (mkDb
          (map (mark "error" alma_id' "GET" job_timestamp)
               (job_status_per_id (db w))
           ++ [mkJobStatus alma_id' "error" job_timestamp "GET"])
          (source_csv (db w)) (fetched_records (db w)) (sent_records (db w))
          (put_post_responses (db w)) (S (commits (db w))))
       (mkNet
          (log (net w)
           ++ [mkLog INFO
                 [Str ("Trying GET for record " ++ last_segment alma_id'
                       ++ " at " ++ path ++ ".")];
               failure_report "GET" (path ++ last_segment alma_id') r;
               mkLog ERROR
                 [Str ("Could not fetch record " ++ alma_id' ++ ".")]])
          s')).
Proof.
  intros Hsend Hst Hutf.
  to_the_wire Hsend.
  apply Z.eqb_neq in Hst. rewrite Hst.
  unfold lift, decode_utf8. rewrite Hutf. simpl.
  unfold update_job_status, commit, on_db, with_db, set_job_status_rows;
    simpl.
  rewrite map_app; simpl map. rewrite mark_own.
  unfold failure_report.
  repeat (rewrite <- ?app_assoc, ?string_app_assoc; simpl).
  reflexivity.
Qed.

(** X16: a record of the bibliographic API whose GET is answered 200 with a
    body that is text, has no [<errorList>] and does not open with [<?xml]:
    the TypeError of the client goes through call_api_for_record; the GET
    row of the record is registered and stays new, nothing is committed, and
    no error is logged. *)
Theorem get_answered_with_non_xml alma_id' manipulate_record
    (w : World server) (r : Response) (s' : server) :
  send (remote (net w))
    (mkRequest "GET" (api_base_url ++ path ++ last_segment alma_id')
       (xml_headers api_key) None)
  = (r, s') ->
  status_code r = 200 ->
  utf8_valid (content r) = true ->
  contains "<errorList>" (content r) = false ->
  startswith (content r) "<?xml" = false ->
  call_api_for_record rest job_timestamp alma_id' "bibs" "bibs" "GET"
    manipulate_record w
  = (Raised TypeError,
     mkWorld
       (mkDb
          (job_status_per_id (db w)
           ++ [mkJobStatus alma_id' "new" job_timestamp "GET"])
          (source_csv (db w)) (fetched_records (db w)) (sent_records (db w))
          (put_post_responses (db w)) (commits (db w)))
       (mkNet
          (log (net w)
           ++ [mkLog INFO
                 [Str ("Trying GET for record " ++ last_segment alma_id'
                       ++ " at " ++ path ++ ".")];
               mkLog INFO
                 [Str ("GET for record " ++ dquote ++ path
                       ++ last_segment alma_id' ++ dquote
                       ++ " completed.")]])
          s')).
Proof.
  intros Hsend Hst Hutf Herr Hxml.
  to_the_wire Hsend.
  rewrite Hst. simpl.
  unfold lift, decode_utf8. rewrite Hutf. simpl.
  rewrite Herr, Hxml. simpl.
  repeat (rewrite <- ?app_assoc, ?string_app_assoc; simpl).
  reflexivity.
Qed.

End EndToEnd.

(* ===================================================================== *)
(** ** More on the flat generation and the CSV helper                     *)
(* ===================================================================== *)

Lemma startswith_two_chars s (a b c d : ascii) :
  startswith s (String a (String b EmptyString)) = true ->
  startswith s (String c (String d EmptyString)) = true ->
  a = c /\ b = d.
Proof.
  unfold startswith. destruct s as [|x [|y s]]; try discriminate.
  - rewrite prefix_cons. simpl. rewrite andb_false_r. discriminate.
  - rewrite !prefix_cons, prefix_nil, !andb_true_r.
    intros H1 H2.
    apply andb_true_iff in H1. destruct H1 as [H1 H1'].
    apply andb_true_iff in H2. destruct H2 as [H2 H2'].
    apply Ascii.eqb_eq in H1, H1', H2, H2'. subst. split; reflexivity.
Qed.

Lemma startswith_other s (a b c d : ascii) :
  startswith s (String a (String b EmptyString)) = true ->
  (a, b) <> (c, d) ->
  startswith s (String c (String d EmptyString)) = false.
Proof.
  intros H1 Hne.
  destruct (startswith s (String c (String d EmptyString))) eqn:H2;
    [|reflexivity].
  destruct (startswith_two_chars _ _ _ _ _ H1 H2) as [-> ->].
  contradiction.
Qed.

Section FlatAlmaRestMore.

Context {server : Type}.
Variable rest_bibs : @RestBibs server.
Variable job_timestamp : Z.

Ltac to_dispatch :=
  unfold for_alma_id;
  unfold bind at 1, lift at 1; rewrite index_last_split;
  rewrite !slice_0_2_eqb.

Ltac other_prefixes H :=
  repeat match goal with
         | |- context [startswith ?s (String ?c (String ?d EmptyString))] =>
             lazymatch type of H with
             | startswith s (String c (String d EmptyString)) = true => fail
             | _ => rewrite (startswith_other s _ _ c d H) by discriminate
             end
         end.

(** X17: the rest of the dispatch of the flat generation.  An identifier
    whose last segment starts with 23 and that has three segments goes to the
    item retrieval with the first, second and third segment; one whose last
    segment starts with 53 (or 61) and that has two segments goes to the
    portfolio (or e-collection) retrieval with the first and second segment;
    what the retrieval gives is then recorded. *)
Theorem dispatch_items_portfolios_collections alma_id' (w : World server) :
  (startswith (last_segment alma_id') "23" = true ->
   forall a b c,
     nth_error (split "," alma_id') 0 = Some a ->
     nth_error (split "," alma_id') 1 = Some b ->
     nth_error (split "," alma_id') 2 = Some c ->
     for_alma_id rest_bibs job_timestamp alma_id' w
     = (record_data <- in_net (get_item rest_bibs a b c) ;;
        record_outcome job_timestamp alma_id' record_data) w)
  /\ (startswith (last_segment alma_id') "53" = true ->
      forall a b,
        nth_error (split "," alma_id') 0 = Some a ->
        nth_error (split "," alma_id') 1 = Some b ->
        for_alma_id rest_bibs job_timestamp alma_id' w
        = (record_data <- in_net (get_portfolio rest_bibs a b) ;;
           record_outcome job_timestamp alma_id' record_data) w)
  /\ (startswith (last_segment alma_id') "61" = true ->
      forall a b,
        nth_error (split "," alma_id') 0 = Some a ->
        nth_error (split "," alma_id') 1 = Some b ->
        for_alma_id rest_bibs job_timestamp alma_id' w
        = (record_data <- in_net (get_e_collection rest_bibs a b) ;;
           record_outcome job_timestamp alma_id' record_data) w).
Proof.
  split; [|split].
  - intros H a b c Ha Hb Hc. to_dispatch. other_prefixes H. rewrite H.
    unfold bind, lift, index. rewrite Ha, Hb, Hc. reflexivity.
  - intros H a b Ha Hb. to_dispatch. other_prefixes H. rewrite H.
    unfold bind, lift, index. rewrite Ha, Hb. reflexivity.
  - intros H a b Ha Hb. to_dispatch. other_prefixes H. rewrite H.
    unfold bind, lift, index. rewrite Ha, Hb. reflexivity.
Qed.

(** X18: an identifier with fewer segments than its kind needs (one segment
    for the prefixes 22, 53 and 61, fewer than three for the prefix 23)
    makes the loop body raise IndexError; no retrieval is called, nothing is
    logged and the job-status row of the identifier is left as it was. *)
Theorem too_few_segments_raise alma_id' (w : World server) :
  (startswith (last_segment alma_id') "22" = true
   \/ startswith (last_segment alma_id') "53" = true
   \/ startswith (last_segment alma_id') "61" = true ->
   length (split "," alma_id') = 1%nat ->
   for_alma_id rest_bibs job_timestamp alma_id' w = (Raised IndexError, w))
  /\ (startswith (last_segment alma_id') "23" = true ->
      (length (split "," alma_id') < 3)%nat ->
      for_alma_id rest_bibs job_timestamp alma_id' w
      = (Raised IndexError, w)).
Proof.
  split.
  - intros H Hlen. to_dispatch.
    destruct (split "," alma_id') as [|a [|b l]] eqn:Es;
      try discriminate Hlen.
    destruct H as [H | [H | H]]; other_prefixes H; rewrite H; reflexivity.
  - intros H Hlen. to_dispatch. other_prefixes H. rewrite H.
    destruct (split "," alma_id') as [|a [|b [|c l]]] eqn:Es;
      try (simpl in Hlen; lia); reflexivity.
Qed.

(** X19: for an identifier whose last segment starts with 99, the row is
    set by whether the retrieval gave anything at all: any body, the empty
    string too, sets the rows of the identifier to done and stores the body
    in fetched_records; only an absent result sets them to error, and then
    stores nothing. *)
Theorem bib_outcome_is_none_test alma_id' (w : World server)
    (v : option string) (n1 : Net server) :
  startswith (last_segment alma_id') "99" = true ->
  get_bib rest_bibs alma_id' (net w) = (Returned v, n1) ->
  for_alma_id rest_bibs job_timestamp alma_id' w
  = (Returned tt,
     mkWorld
       (match v with
        | Some data =>
            mkDb (map (stamp "done" alma_id' job_timestamp)
                      (job_status_per_id (db w)))
                 (source_csv (db w))
                 (fetched_records (db w)
                  ++ [mkBody alma_id' job_timestamp data])
                 (sent_records (db w)) (put_post_responses (db w))
                 (commits (db w))
        | None =>
            mkDb (map (stamp "error" alma_id' job_timestamp)
                      (job_status_per_id (db w)))
                 (source_csv (db w)) (fetched_records (db w))
                 (sent_records (db w)) (put_post_responses (db w))
                 (commits (db w))
        end)
       n1).
Proof.
  intros H Hget. to_dispatch. rewrite H.
  unfold bind, in_net. rewrite Hget.
  destruct v as [data|]; reflexivity.
Qed.

End FlatAlmaRestMore.

Section FlatEntryPoint.

Variable files : string -> option (list CsvLine).
Variable is_valid_alma_id : string -> bool.
Context {server : Type}.
Variable rest_bibs : @RestBibs server.
Variable job_timestamp : Z.

Lemma no_new_row_no_id rows :
  (forall r, In r rows -> job_date r = job_timestamp ->
             job_status r <> "new") ->
  filter (fun r => ((job_status r =? "new")%string
                    && (job_date r =? job_timestamp))%bool) rows
  = [].
Proof.
  intros Hnone. induction rows as [|r rows IH]; [reflexivity|].
  simpl.
  destruct ((job_status r =? "new")%string && (job_date r =? job_timestamp))%bool
    eqn:E.
  - apply andb_true_iff in E. destruct E as [E1 E2].
    apply String.eqb_eq in E1. apply Z.eqb_eq in E2.
    exfalso. apply (Hnone r); [left; reflexivity | exact E2 | exact E1].
  - apply IH. intros r' Hin. apply Hnone. right. exact Hin.
Qed.

(** X20: the flat entry point on a path that does not pass the file check,
    when the job has no row at new: one error is logged, the platform is not
    contacted, no table is written, and the closing commit is made. *)
Theorem flat_entry_point_without_file csv_path (w : World server) :
  files csv_path = None ->
  (forall r, In r (job_status_per_id (db w)) ->
             job_date r = job_timestamp -> job_status r <> "new") ->
  get_records_via_api_for_csv_list files is_valid_alma_id rest_bibs
    job_timestamp csv_path w
  = (Returned tt,
     mkWorld
       (mkDb (job_status_per_id (db w)) (source_csv (db w))
             (fetched_records (db w)) (sent_records (db w))
             (put_post_responses (db w)) (S (commits (db w))))
       (mkNet (log (net w)
               ++ [mkLog ERROR [Str "No valid file path provided."]])
              (remote (net w)))).
Proof.
  intros Hfile Hnone.
  unfold get_records_via_api_for_csv_list, import_csv_to_db_tables,
    check_file_path.
  rewrite Hfile.
  unfold bind, create_db_session, get_list_of_ids_for_job_with_status,
    logger_error, emit, ret; simpl.
  rewrite (no_new_row_no_id _ Hnone). reflexivity.
Qed.

End FlatEntryPoint.

Section InputHelpersMore.

Context {server : Type}.

Lemma first_column_some (line : CsvLine) :
  line <> [] ->
  first_column line = Returned (snd (hd (EmptyString, EmptyString) line)).
Proof. destruct line as [|[k v] rest]; [contradiction | reflexivity]. Qed.

(** X21: extract_almaids gives the value of the first column of every
    stored row, in the order of the rows, when every row has a column; a
    stored row without any column makes it raise IndexError. *)
Theorem extract_almaids_in_file_order (lines : list CsvLine) :
  (Forall (fun line => line <> []) lines ->
   extract_almaids (mkCsvHelper lines)
   = Returned (map (fun line => snd (hd (EmptyString, EmptyString) line))
                   lines))
  /\ (Exists (fun line => line = []) lines ->
      extract_almaids (mkCsvHelper lines) = Raised IndexError).
Proof.
  unfold extract_almaids; simpl. split.
  - induction 1 as [|line rest Hline _ IH]; [reflexivity|].
    simpl. rewrite (first_column_some _ Hline), IH. reflexivity.
  - induction lines as [|line rest IH]; intros Hex.
    + inversion Hex.
    + simpl. destruct line as [|[k v] line'].
      * reflexivity.
      * inversion Hex as [? ? Hhere | ? ? Hlater]; subst;
          [discriminate Hhere|].
        simpl. rewrite (IH Hlater). reflexivity.
Qed.

(** X22: add_to_source_csv_table adds one source_csv row per stored row, in
    the order of the rows and all with the timestamp it is given; it writes
    no other table, logs nothing and does not commit. *)
Theorem add_to_source_csv_table_appends (self : CsvHelper)
    (job_timestamp : Z) (w : World server) :
  add_to_source_csv_table self job_timestamp w
  = (Returned tt,
     mkWorld
       (mkDb (job_status_per_id (db w))
             (source_csv (db w)
              ++ map (mkSourceCsv job_timestamp) (csv_line_list self))
             (fetched_records (db w)) (sent_records (db w))
             (put_post_responses (db w)) (commits (db w)))
       (net w)).
Proof.
  unfold add_to_source_csv_table.
  destruct self as [lines]; simpl.
  revert w. induction lines as [|line rest IH]; intros w.
  - simpl. rewrite app_nil_r. destruct w as [[? ? ? ? ? ?] ?]. reflexivity.
  - simpl. unfold bind at 1.
    unfold add_csv_line_to_source_csv_table at 1, on_db; simpl.
    rewrite IH. simpl. rewrite <- app_assoc. reflexivity.
Qed.

End InputHelpersMore.

(** *** Whole rounds of call_api_for_record *)

Section Rounds.

Context {server : Type}.
Variable rest : @RestModules server.
Variable job_timestamp : Z.

Ltac fetch Hinst Hidx Hget :=
  unfold call_api_for_record;
  unfold bind at 1; simpl;
  unfold bind at 1; simpl;
  unfold bind at 1; rewrite Hinst;
  unfold bind at 1; simpl;
  unfold bind at 1; unfold lift at 1; rewrite Hidx;
  unfold bind at 1; unfold in_net at 1; simpl; rewrite Hget.

Ltac tables :=
  unfold bind, add_response_content_to_fetched_records, update_job_status,
    commit, add_alma_id_to_job_status_per_id, add_put_post_response,
    add_sent_record, on_db, logger_error, logger_info, emit, ret, with_db,
    set_job_status_rows; simpl.

(** X23: a round with the method GET or DELETE once the record is fetched.
    With GET the job-status table gains the one row (GET, done),
    fetched_records gains the body, and two commits are made.  With DELETE
    the table gains (GET, done) and then the DELETE row, at error when the
    deletion gave nothing and at done otherwise; fetched_records gains the
    body and nothing else is written. *)
Theorem get_and_delete_rounds alma_id' api record_type record_id api_obj
    manipulate_record (w w0 : World server) data n1 :
  instantiate_api_class rest alma_id' api record_type w
  = (Returned api_obj, w0) ->
  index_last (split "," alma_id') = Returned record_id ->
  api_retrieve api_obj record_id (net w0) = (Returned (Some data), n1) ->
  data <> EmptyString ->
  call_api_for_record rest job_timestamp alma_id' api record_type "GET"
    manipulate_record w
  = (Returned tt,
     mkWorld
       (mkDb
          (map (mark "done" alma_id' "GET" job_timestamp)
               (job_status_per_id (db w))
           ++ [mkJobStatus alma_id' "done" job_timestamp "GET"])
          (source_csv (db w))
          (fetched_records (db w) ++ [mkBody alma_id' job_timestamp data])
          (sent_records (db w)) (put_post_responses (db w))
          (S (S (commits (db w)))))
       n1)
  /\ (forall d n2,
        api_delete api_obj record_id n1 = (Returned d, n2) ->
        call_api_for_record rest job_timestamp alma_id' api record_type
          "DELETE" manipulate_record w
        = (Returned tt,
           mkWorld
             (mkDb
                (map (mark (match d with None => "error" | Some _ => "done"
                            end) alma_id' "DELETE" job_timestamp)
                     (map (mark "done" alma_id' "GET" job_timestamp)
                          (job_status_per_id (db w)))
                 ++ [mkJobStatus alma_id' "done" job_timestamp "GET";
                     mkJobStatus alma_id'
                       (match d with None => "error" | Some _ => "done" end)
                       job_timestamp "DELETE"])
                (source_csv (db w))
                (fetched_records (db w)
                 ++ [mkBody alma_id' job_timestamp data])
                (sent_records (db w)) (put_post_responses (db w))
                (S (S (commits (db w)))))
             n2)).
Proof.
  intros Hinst Hidx Hget Hdata.
  pose proof (keeps_db_instantiate_api_class rest _ _ _ _ _ _ Hinst) as Hdb.
  destruct data as [|c data]; [contradiction|].
  split.
  - fetch Hinst Hidx Hget. tables.
    rewrite Hdb, map_app; simpl map. rewrite mark_own. reflexivity.
  - intros d n2 Hdel.
    fetch Hinst Hidx Hget. tables.
    unfold in_net; simpl. rewrite Hdel.
    destruct d as [d|]; simpl.
    all: rewrite Hdb, !map_app; simpl map.
    all: rewrite !mark_own.
    all: rewrite (mark_other_action _ "done" alma_id' "DELETE" "GET")
      by discriminate.
    all: rewrite <- !app_assoc; reflexivity.
Qed.

(** X24: a round with the method PUT, once the record is fetched, the
    transform gave a body and the update gave a response: the job-status
    table gains (GET, done) and (PUT, done), sent_records gains the body the
    transform gave, put_post_responses gains the response of the update,
    fetched_records gains the fetched body, and two commits are made. *)
Theorem put_round_stores_both alma_id' api record_type record_id api_obj
    (f : string -> string -> option string) (w w0 : World server)
    data new response n1 n2 :
  instantiate_api_class rest alma_id' api record_type w
  = (Returned api_obj, w0) ->
  index_last (split "," alma_id') = Returned record_id ->
  api_retrieve api_obj record_id (net w0) = (Returned (Some data), n1) ->
  data <> EmptyString ->
  f alma_id' data = Some new ->
  new <> EmptyString ->
  api_update api_obj record_id new n1 = (Returned (Some response), n2) ->
  response <> EmptyString ->
  exists n3,
    call_api_for_record rest job_timestamp alma_id' api record_type "PUT"
      (Some f) w
    = (Returned tt,
       mkWorld
         (mkDb
            (map (mark "done" alma_id' "PUT" job_timestamp)
                 (map (mark "done" alma_id' "GET" job_timestamp)
                      (job_status_per_id (db w)))
             ++ [mkJobStatus alma_id' "done" job_timestamp "GET";
                 mkJobStatus alma_id' "done" job_timestamp "PUT"])
            (source_csv (db w))
            (fetched_records (db w) ++ [mkBody alma_id' job_timestamp data])
            (sent_records (db w) ++ [mkBody alma_id' job_timestamp new])
            (put_post_responses (db w)
             ++ [mkBody alma_id' job_timestamp response])
            (S (S (commits (db w)))))
         n3)
    /\ remote n3 = remote n2.
Proof.
  intros Hinst Hidx Hget Hdata Hf Hnew Hupd Hresp.
  pose proof (keeps_db_instantiate_api_class rest _ _ _ _ _ _ Hinst) as Hdb.
  destruct data as [|c data]; [contradiction|].
  destruct new as [|c' new]; [contradiction|].
  destruct response as [|c'' response]; [contradiction|].
  fetch Hinst Hidx Hget. tables. rewrite Hf.
  unfold in_net; simpl. rewrite Hupd. simpl.
  unfold check_data_sent_equals_response, logger_warning, emit, ret; simpl.
  match goal with
  | |- context [strings_eqb ?a ?b] => destruct (strings_eqb a b)
  end.
  all: eexists; split;
    [ simpl; rewrite Hdb, !map_app; simpl map;
      rewrite !mark_own,
        (mark_other_action _ "done" alma_id' "PUT" "GET") by discriminate;
      rewrite <- !app_assoc; reflexivity
    | reflexivity ].
Qed.

End Rounds.

Section Bodies.

Context {server : Type}.
Variable send : server -> Request -> Response * server.
Variables (api_key api_base_url : string).

(** X25: the record data reaches the platform with POST and PUT only: a
    call with GET or DELETE sends no body even when it is given one, and a
    call with POST or PUT sends the one it is given. *)
Theorem record_data_goes_with_post_and_put url_parameters expected
    record_data (n : Net server) :
  remote (snd (call_api send api_key api_base_url url_parameters "GET"
                 expected record_data n))
  = snd (send (remote n)
           (mkRequest "GET" (api_base_url ++ url_parameters)
              (xml_headers api_key) None))
  /\ remote (snd (call_api send api_key api_base_url url_parameters "DELETE"
                    expected record_data n))
     = snd (send (remote n)
              (mkRequest "DELETE" (api_base_url ++ url_parameters)
                 (xml_headers api_key) None))
  /\ remote (snd (call_api send api_key api_base_url url_parameters "POST"
                    expected record_data n))
     = snd (send (remote n)
              (mkRequest "POST" (api_base_url ++ url_parameters)
                 (xml_headers api_key) record_data))
  /\ remote (snd (call_api send api_key api_base_url url_parameters "PUT"
                    expected record_data n))
     = snd (send (remote n)
              (mkRequest "PUT" (api_base_url ++ url_parameters)
                 (xml_headers api_key) record_data)).
Proof.
  split; [|split; [|split]];
    apply (call_api_remote_known send api_key api_base_url); reflexivity.
Qed.

End Bodies.

(* ===================================================================== *)
(** ** Runs of the further properties                                     *)
(* ===================================================================== *)

Lemma call_api_body_not_utf8_witness :
  call_api scripted_send example_key example_base_url "/bibs/991234" "GET"
    200 None answered_500_not_utf8
  = (Raised UnicodeDecodeError,
     mkNet (log answered_500_not_utf8)
           (remote (after_get_991234 answered_500_not_utf8))).
Proof.
  apply (call_api_body_not_utf8 scripted_send example_key example_base_url
           "/bibs/991234" "GET" 200 None answered_500_not_utf8
           (after_get_991234 answered_500_not_utf8)
           (mkResponse 500 (String (ascii_of_nat 255) EmptyString))).
  - reflexivity.
  - reflexivity.
Defined.

Lemma call_api_clean_success_witness :
  call_api scripted_send example_key example_base_url "/bibs/991234" "GET"
    200 None (before [mkResponse 200 xml_body])
  = (Returned (Some xml_body),
     mkNet ([] ++ [mkLog INFO
                     [Str ("GET" ++ " for record " ++ dquote
                           ++ "/bibs/991234" ++ dquote ++ " completed.")]])
           (remote (after_get_991234 (before [mkResponse 200 xml_body])))).
Proof.
  apply (call_api_clean_success scripted_send example_key example_base_url
           "/bibs/991234" "GET" 200 None (before [mkResponse 200 xml_body])
           (after_get_991234 (before [mkResponse 200 xml_body]))
           (mkResponse 200 xml_body)).
  - reflexivity.
  - reflexivity.
  - reflexivity.
  - reflexivity.
  - left. reflexivity.
Defined.

Lemma call_api_embedded_error_list_witness :
  exists completed warning,
    call_api scripted_send example_key example_base_url "/bibs/991234" "GET"
      200 None (before [mkResponse 200 xml_error_body])
    = (Returned (Some xml_error_body),
       mkNet ([] ++ [mkLog INFO completed; mkLog WARNING warning])
             (remote (after_get_991234
                        (before [mkResponse 200 xml_error_body])))).
Proof.
  apply (call_api_embedded_error_list scripted_send example_key
           example_base_url "/bibs/991234" "GET" 200 None
           (before [mkResponse 200 xml_error_body])
           (after_get_991234 (before [mkResponse 200 xml_error_body]))
           (mkResponse 200 xml_error_body)).
  - reflexivity.
  - reflexivity.
  - reflexivity.
  - reflexivity.
Defined.

Lemma call_api_returns_the_body_witness :
  remote (snd (call_api scripted_send example_key example_base_url
                 "/bibs/991234" "GET" 200 None
                 (before [mkResponse 200 xml_body])))
  = remote (after_get_991234 (before [mkResponse 200 xml_body]))
  /\ ((Some xml_body = Some xml_body /\ 200 = 200)
      \/ (Some xml_body = None /\ 200 <> 200)).
Proof.
  apply (call_api_returns_the_body scripted_send example_key
           example_base_url "/bibs/991234" "GET" 200 None
           (before [mkResponse 200 xml_body])
           (after_get_991234 (before [mkResponse 200 xml_body]))
           (snd (call_api scripted_send example_key example_base_url
                   "/bibs/991234" "GET" 200 None
                   (before [mkResponse 200 xml_body])))
           (mkResponse 200 xml_body) (Some xml_body)).
  - reflexivity.
  - reflexivity.
Defined.

Lemma call_api_unknown_method_witness :
  call_api scripted_send example_key example_base_url "/bibs/991234" "PATCH"
    200 None (before [])
  = (Raised ValueError,
     mkNet ([] ++ [mkLog ERROR [Str "No valid REST method supplied."]])
           (script [])).
Proof.
  apply (call_api_unknown_method scripted_send example_key example_base_url
           "/bibs/991234" "PATCH" 200 None (before [])).
  simpl. intros [H | [H | [H | [H | H]]]];
    [discriminate H | discriminate H | discriminate H | discriminate H
    | exact H].
Defined.

Lemma instantiate_api_class_unknown_witness :
  instantiate_api_class (example_rest None) "991234" "acq" "vendors"
    (start [])
  = (Raised NotImplementedError,
     mkWorld empty_db
       (mkNet ([] ++ [mkLog ERROR
                        [Str "The API you are trying to call is not implemented yet or does not exist."]])
              (script []))).
Proof.
  apply (proj1 (instantiate_api_class_unknown (example_rest None) "991234"
                  "acq" "vendors" (start []))).
  simpl. intros [H | [H | [H | H]]];
    [discriminate H | discriminate H | discriminate H | exact H].
Defined.

Lemma instantiate_api_class_ancestors_witness :
  instantiate_api_class (example_rest None) "9917,2217,2317" "bibs" "items"
    (start [])
  = in_net (rest_bibs_ItemsApi (example_rest None) "9917" "2217") (start []).
Proof.
  apply (proj1 (proj2 (proj2 (proj2
           (instantiate_api_class_ancestors (example_rest None)
              "9917,2217,2317" (start [])))))).
  reflexivity.
Defined.

Lemma call_api_for_record_without_class_witness :
  call_api_for_record (example_rest None) 7 "991234" "acq" "vendors" "GET"
    None (start [])
  = (Raised NotImplementedError,
     snd (instantiate_api_class (example_rest None) "991234" "acq" "vendors"
            (start [])))
  /\ db (snd (instantiate_api_class (example_rest None) "991234" "acq"
                "vendors" (start [])))
     = db (start []).
Proof.
  apply (call_api_for_record_without_class (example_rest None) 7 "991234"
           "acq" "vendors" "GET" None (start [])).
  - simpl. right. left. reflexivity.
  - reflexivity.
Defined.

Lemma put_without_transform_function_witness :
  call_api_for_record (example_rest None) 7 "991234" "bibs" "bibs" "PUT"
    None (start [mkResponse 200 xml_body])
  = (Raised TypeError,
     mkWorld
       (mkDb [mkJobStatus "991234" "done" 7 "GET";
              mkJobStatus "991234" "new" 7 "PUT"]
             [] [mkBody "991234" 7 xml_body] [] [] 1)
       (snd (api_retrieve bibs_object "991234"
               (net (start [mkResponse 200 xml_body]))))).
Proof.
  apply (put_without_transform_function (example_rest None) 7 "991234"
           "bibs" "bibs" "991234" bibs_object
           (start [mkResponse 200 xml_body])
           (start [mkResponse 200 xml_body]) xml_body).
  - reflexivity.
  - reflexivity.
  - reflexivity.
  - discriminate.
Defined.

Lemma only_put_writes_sent_and_responses_witness :
  keeps_sent (call_api_for_record (example_rest None) 7 "991234" "bibs"
                "bibs" "DELETE" None).
Proof.
  apply (proj1 (only_put_writes_sent_and_responses (example_rest None) 7
                  "991234" None "12345" "bibs" "bibs" "DELETE" None
                  ltac:(discriminate))).
Defined.

Lemma call_api_for_list_checks_method_per_record_witness :
  call_api_for_list (example_rest None) 7 (Some ["991234"; "991235"]) "bibs"
    "bibs" "PATCH" None (start [])
  = (Raised ValueError,
     mkWorld empty_db
       (mkNet ([] ++ [mkLog ERROR
                        [Str "Provided method PATCH does not match any of the expected values."]])
              (script []))).
Proof.
  apply (proj1 (proj2 (call_api_for_list_checks_method_per_record
                         (example_rest None) 7 "991234" ["991235"] "bibs"
                         "bibs" "PATCH" None (start [])))).
  simpl. intros [H | [H | [H | [H | H]]]];
    [discriminate H | discriminate H | discriminate H | discriminate H
    | exact H].
Defined.

Lemma get_answered_with_failure_witness :
  call_api_for_record (example_rest None) 7 "991234" "bibs" "bibs" "GET"
    None (start [mkResponse 500 "<error/>"])
  = (Returned tt,
     mkWorld
       (mkDb [mkJobStatus "991234" "error" 7 "GET"] [] [] [] [] 1)
       (mkNet
          ([] ++ [mkLog INFO [Str "Trying GET for record 991234 at /bibs/."];
                  failure_report "GET" "/bibs/991234"
                    (mkResponse 500 "<error/>");
                  mkLog ERROR [Str "Could not fetch record 991234."]])
          (remote (after_get_991234 (before [mkResponse 500 "<error/>"]))))).
Proof.
  apply (get_answered_with_failure scripted_send example_key
           example_base_url "/bibs/" (example_rest None) 7 eq_refl "991234"
           None (start [mkResponse 500 "<error/>"])
           (mkResponse 500 "<error/>")).
  - reflexivity.
  - discriminate.
  - reflexivity.
Defined.

Lemma get_answered_with_non_xml_witness :
  call_api_for_record (example_rest None) 7 "991234" "bibs" "bibs" "GET"
    None (start [mkResponse 200 "plain text"])
  = (Raised TypeError,
     mkWorld
       (mkDb [mkJobStatus "991234" "new" 7 "GET"] [] [] [] [] 0)
       (mkNet
          ([] ++ [mkLog INFO [Str "Trying GET for record 991234 at /bibs/."];
                  mkLog INFO
                    [Str ("GET for record " ++ dquote ++ "/bibs/991234"
                          ++ dquote ++ " completed.")]])
          (remote (after_get_991234 (before [mkResponse 200 "plain text"]))))).
Proof.
  apply (get_answered_with_non_xml scripted_send example_key
           example_base_url "/bibs/" (example_rest None) 7 eq_refl "991234"
           None (start [mkResponse 200 "plain text"])
           (mkResponse 200 "plain text")).
  - reflexivity.
  - reflexivity.
  - reflexivity.
  - reflexivity.
  - reflexivity.
Defined.

Lemma dispatch_items_portfolios_collections_witness :
  for_alma_id example_rest_bibs 7 "9917,2217,2317"
    (start [mkResponse 200 xml_body])
  = (record_data <- in_net (get_item example_rest_bibs "9917" "2217" "2317") ;;
     record_outcome 7 "9917,2217,2317" record_data)
      (start [mkResponse 200 xml_body]).
Proof.
  apply (proj1 (dispatch_items_portfolios_collections example_rest_bibs 7
                  "9917,2217,2317" (start [mkResponse 200 xml_body]))).
  - reflexivity.
  - reflexivity.
  - reflexivity.
  - reflexivity.
Defined.

Lemma too_few_segments_raise_witness :
  for_alma_id example_rest_bibs 7 "2317452500001234" (start [])
  = (Raised IndexError, start []).
Proof.
  apply (proj2 (too_few_segments_raise example_rest_bibs 7
                  "2317452500001234" (start []))).
  - reflexivity.
  - simpl. lia.
Defined.

Lemma bib_outcome_is_none_test_witness :
  for_alma_id example_rest_bibs 7 "991234" job_with_new_row
  = (Returned tt,
     mkWorld
       (mkDb [mkJobStatus "991234" "done" 7 "GET"] []
             [mkBody "991234" 7 xml_body] [] [] 0)
       (snd (get_bib example_rest_bibs "991234" (net job_with_new_row))))
  /\ for_alma_id empty_body_bibs 7 "991234" job_with_new_row
     = (Returned tt,
        mkWorld
          (mkDb [mkJobStatus "991234" "done" 7 "GET"] []
                [mkBody "991234" 7 EmptyString] [] [] 0)
          (net job_with_new_row))
  /\ for_alma_id example_rest_bibs 7 "991234"
       (mkWorld (db job_with_new_row) (before [mkResponse 500 "<error/>"]))
     = (Returned tt,
        mkWorld
          (mkDb [mkJobStatus "991234" "error" 7 "GET"] [] [] [] [] 0)
          (snd (get_bib example_rest_bibs "991234"
                  (before [mkResponse 500 "<error/>"])))).
Proof.
  split; [|split].
  - apply (bib_outcome_is_none_test example_rest_bibs 7 "991234"
             job_with_new_row (Some xml_body)).
    + reflexivity.
    + reflexivity.
  - apply (bib_outcome_is_none_test empty_body_bibs 7 "991234"
             job_with_new_row (Some EmptyString)).
    + reflexivity.
    + reflexivity.
  - apply (bib_outcome_is_none_test example_rest_bibs 7 "991234"
             (mkWorld (db job_with_new_row)
                (before [mkResponse 500 "<error/>"])) None).
    + reflexivity.
    + reflexivity.
Defined.

Lemma flat_entry_point_without_file_witness :
  get_records_via_api_for_csv_list no_files (fun _ => true)
    example_rest_bibs 7 "/path/to/csv" (start [])
  = (Returned tt,
     mkWorld (mkDb [] [] [] [] [] 1)
       (mkNet ([] ++ [mkLog ERROR [Str "No valid file path provided."]])
              (script []))).
Proof.
  apply (flat_entry_point_without_file no_files (fun _ => true)
           example_rest_bibs 7 "/path/to/csv" (start [])).
  - reflexivity.
  - intros r Hin. destruct Hin.
Defined.

Lemma extract_almaids_in_file_order_witness :
  extract_almaids (mkCsvHelper two_rows)
  = Returned ["9981093873901234"; "9981093873911234"].
Proof.
  apply (proj1 (extract_almaids_in_file_order two_rows)).
  repeat constructor; discriminate.
Defined.

Lemma get_and_delete_rounds_witness :
  call_api_for_record (example_rest None) 7 "991234" "bibs" "bibs" "GET"
    None (start [mkResponse 200 xml_body])
  = (Returned tt,
     mkWorld
       (mkDb [mkJobStatus "991234" "done" 7 "GET"] []
             [mkBody "991234" 7 xml_body] [] [] 2)
       (snd (api_retrieve bibs_object "991234"
               (net (start [mkResponse 200 xml_body]))))).
Proof.
  apply (proj1 (get_and_delete_rounds (example_rest None) 7 "991234" "bibs"
                  "bibs" "991234" bibs_object None
                  (start [mkResponse 200 xml_body])
                  (start [mkResponse 200 xml_body]) xml_body
                  (snd (api_retrieve bibs_object "991234"
                          (net (start [mkResponse 200 xml_body]))))
                  eq_refl eq_refl eq_refl ltac:(discriminate))).
Defined.

Lemma put_round_stores_both_witness :
  exists n3,
    call_api_for_record (example_rest None) 7 "991234" "bibs" "bibs" "PUT"
      (Some fixed_output)
      (start [mkResponse 200 xml_body; mkResponse 200 xml_body])
    = (Returned tt,
       mkWorld
         (mkDb [mkJobStatus "991234" "done" 7 "GET";
                mkJobStatus "991234" "done" 7 "PUT"]
               [] [mkBody "991234" 7 xml_body]
               [mkBody "991234" 7 "<?xml version='1.0'?><bib>new</bib>"]
               [mkBody "991234" 7 xml_body] 2)
         n3)
    /\ remote n3
       = remote
           (snd (api_update bibs_object "991234"
                   "<?xml version='1.0'?><bib>new</bib>"
                   (snd (api_retrieve bibs_object "991234"
                           (net (start [mkResponse 200 xml_body;
                                        mkResponse 200 xml_body])))))).
Proof.
  apply (put_round_stores_both (example_rest None) 7 "991234" "bibs" "bibs"
           "991234" bibs_object fixed_output
           (start [mkResponse 200 xml_body; mkResponse 200 xml_body])
           (start [mkResponse 200 xml_body; mkResponse 200 xml_body])
           xml_body "<?xml version='1.0'?><bib>new</bib>" xml_body
           (snd (api_retrieve bibs_object "991234"
                   (net (start [mkResponse 200 xml_body;
                                mkResponse 200 xml_body]))))).
  - reflexivity.
  - reflexivity.
  - reflexivity.
  - discriminate.
  - reflexivity.
  - discriminate.
  - reflexivity.
  - discriminate.
Defined.
